(** * Pentair 5G pool-light controller: a shallow embedding of
      [pool_light_switch.ino] and the properties of its pulse-programming
      state machine.

    The sketch keeps its whole device state in global variables and drives
    three things the outside can observe: the relay pin, the blocking
    [delay]s that shape the pulse train, and the status messages it
    publishes.  The embedding threads the globals through a small
    state-and-trace monad and records those three kinds of effect, in
    program order, in the trace.

    The device part comes first: [setup] and [loop] below are what the two
    functions do to the globals, the relay and the status channel, that
    is, [setup()] without its call of [setup_wifi()] and [loop()] from
    line 325 on, after lines 322-324 have made sure that the MQTT client
    is connected.  The MQTT session ([reconnect]), the WiFi wait
    ([setup_wifi]) and the two functions in full ([setup_sketch],
    [loop_pass]) follow the device part; neither the wait nor the session
    reads or writes a device global or the relay pin.

    Not modelled: the serial console ([Serial.print*]) and the [micros]
    and [client] fields of the status payload. *)

From Stdlib Require Import ZArith List String Ascii Bool Lia.
Import ListNotations.
Local Open Scope string_scope.
Local Open Scope list_scope.
Local Open Scope Z_scope.

(* ===================================================================== *)
(** ** Machine integers *)

(** [long] and [int] are 32-bit two's-complement on the ESP8266. *)
Definition wrap32 (z : Z) : Z := (z + 2147483648) mod 4294967296 - 2147483648.

(** [a - b] on [long]. *)
Definition sub32 (a b : Z) : Z := wrap32 (a - b).

(* ===================================================================== *)
(** ** Constants and tables (lines 18-34) *)

Definition timeBetweenMessages : Z := wrap32 (1000 * 60).
Definition timeBetweenSwitchCheck : Z := 200.
Definition timeBetweenProgCheck : Z := 200.

Definition relayPin : Z := 14.
Definition switchPin : Z := 4.

(** Pin levels of [digitalWrite] / [digitalRead].  The relay is LOW-on. *)
Inductive level : Type := LOW | HIGH.

Definition level_eqb (a b : level) : bool :=
  match a, b with
  | LOW, LOW | HIGH, HIGH => true
  | _, _ => false
  end.

(** [enum colors_enum]. *)
Definition Peruvian_Paradise : Z := 1.
Definition Super_Nova : Z := 2.
Definition Northern_Lights : Z := 3.
Definition Tidal_Wave : Z := 4.
Definition Patriot_Blue : Z := 5.
Definition Desert_Skies : Z := 6.
Definition Nova : Z := 7.
Definition Blue : Z := 8.
Definition Green : Z := 9.
Definition Red : Z := 10.
Definition White : Z := 11.
Definition Pink : Z := 12.
Definition Color_Lock : Z := 13.
Definition Return : Z := 14.

Definition colors_string : list string :=
  [ "Invalid_Color"; "Peruvian_Paradise"; "Super_Nova";
    "Northern_Lights"; "Tidal_Wave"; "Patriot_Blue"; "Desert_Skies"; "Nova";
    "Blue"; "Green"; "Red"; "White"; "Pink"; "Color_Lock"; "Return" ].

(** [colors_string[i]]; the sketch never indexes outside 0..14. *)
Definition colors_string_at (i : Z) : string :=
  nth (Z.to_nat i) colors_string EmptyString.

(** [WL_CONNECTED] and [WL_IDLE_STATUS] of the ESP8266 WiFi library. *)
Definition WL_CONNECTED : Z := 3.
Definition WL_IDLE_STATUS : Z := 0.

(* ===================================================================== *)
(** ** C strings *)

(** The byte a [const char *] points at: the end of the Rocq string is the
    terminating NUL. *)
Definition char_at (s : string) : Z :=
  match s with
  | EmptyString => 0
  | String c _ => Z.of_N (N_of_ascii c)
  end.

(** The pointer advanced by one byte. *)
Definition advance (s : string) : string :=
  match s with
  | EmptyString => EmptyString
  | String _ r => r
  end.

(** libc [strncmp]: compares at most [n] bytes and stops at the first
    difference or at a NUL; zero means equal. *)
Fixpoint strncmp (s1 s2 : string) (n : nat) : Z :=
  match n with
  | O => 0
  | S n' =>
      let c1 := char_at s1 in
      let c2 := char_at s2 in
      if c1 =? c2
      then (if c1 =? 0 then 0 else strncmp (advance s1) (advance s2) n')
      else c1 - c2
  end.

(** The bytes of a C string that a comparison bounded by [n] can see: up
    to [n] of them, the terminating NUL excluded. *)
Fixpoint c_bytes (n : nat) (s : string) : list Z :=
  match n with
  | O => []
  | S n' =>
      if char_at s =? 0 then []
      else char_at s :: c_bytes n' (advance s)
  end.

(* ===================================================================== *)
(** ** Device state, effects and the monad *)

(** The globals of lines 41-48, the output latch of the relay pin, and what
    the radio currently answers to [WiFi.status()] and [WiFi.RSSI()]. *)
Record State : Type := mkState {
  lastMsg : Z;
  lastSwitchCheck : Z;
  lastProgCheck : Z;
  relayOn : bool;
  switchState : level;
  programming : bool;
  progVal : Z;
  currColor : Z;
  relayPinLevel : level;
  WiFi_status : Z;
  WiFi_RSSI : Z
}.

(** The payload of a status message ([doc2], lines 252-269). *)
Record Status : Type := mkStatus {
  st_power : string;
  st_RSSI : Z;
  st_programming : string;
  st_color : string
}.

Inductive Event : Type :=
| EDigitalWrite (pin : Z) (v : level)
| EDelay (ms : Z)
| EPublish (payload : Status).

Definition M (A : Type) : Type := State -> A * State * list Event.

Definition ret {A : Type} (a : A) : M A := fun s => (a, s, []).

Definition bind {A B : Type} (m : M A) (k : A -> M B) : M B :=
  fun s =>
    let '(a, s1, t1) := m s in
    let '(b, s2, t2) := k a s1 in
    (b, s2, t1 ++ t2).

Declare Scope fw_scope.
Delimit Scope fw_scope with fw.
Notation "x <- m ;; k" := (bind m (fun x => k))
  (at level 61, m at next level, right associativity) : fw_scope.
Notation "m ;; k" := (bind m (fun _ => k))
  (at level 61, right associativity) : fw_scope.
Local Open Scope fw_scope.

Definition gets {A : Type} (f : State -> A) : M A := fun s => (f s, s, []).
Definition modify (f : State -> State) : M unit := fun s => (tt, f s, []).
Definition emit (e : Event) : M unit := fun s => (tt, s, [e]).

(** The final state and the trace of a run. *)
Definition exec {A : Type} (m : M A) (s : State) : State := snd (fst (m s)).
Definition trace {A : Type} (m : M A) (s : State) : list Event := snd (m s).
Definition result {A : Type} (m : M A) (s : State) : A := fst (fst (m s)).

(** Assignments to the globals. *)
Definition set_lastMsg (v : Z) (s : State) : State :=
  mkState v (lastSwitchCheck s) (lastProgCheck s) (relayOn s) (switchState s)
    (programming s) (progVal s) (currColor s) (relayPinLevel s)
    (WiFi_status s) (WiFi_RSSI s).
Definition set_lastSwitchCheck (v : Z) (s : State) : State :=
  mkState (lastMsg s) v (lastProgCheck s) (relayOn s) (switchState s)
    (programming s) (progVal s) (currColor s) (relayPinLevel s)
    (WiFi_status s) (WiFi_RSSI s).
Definition set_lastProgCheck (v : Z) (s : State) : State :=
  mkState (lastMsg s) (lastSwitchCheck s) v (relayOn s) (switchState s)
    (programming s) (progVal s) (currColor s) (relayPinLevel s)
    (WiFi_status s) (WiFi_RSSI s).
Definition set_relayOn (v : bool) (s : State) : State :=
  mkState (lastMsg s) (lastSwitchCheck s) (lastProgCheck s) v (switchState s)
    (programming s) (progVal s) (currColor s) (relayPinLevel s)
    (WiFi_status s) (WiFi_RSSI s).
Definition set_switchState (v : level) (s : State) : State :=
  mkState (lastMsg s) (lastSwitchCheck s) (lastProgCheck s) (relayOn s) v
    (programming s) (progVal s) (currColor s) (relayPinLevel s)
    (WiFi_status s) (WiFi_RSSI s).
Definition set_programming (v : bool) (s : State) : State :=
  mkState (lastMsg s) (lastSwitchCheck s) (lastProgCheck s) (relayOn s)
    (switchState s) v (progVal s) (currColor s) (relayPinLevel s)
    (WiFi_status s) (WiFi_RSSI s).
Definition set_progVal (v : Z) (s : State) : State :=
  mkState (lastMsg s) (lastSwitchCheck s) (lastProgCheck s) (relayOn s)
    (switchState s) (programming s) v (currColor s) (relayPinLevel s)
    (WiFi_status s) (WiFi_RSSI s).
Definition set_currColor (v : Z) (s : State) : State :=
  mkState (lastMsg s) (lastSwitchCheck s) (lastProgCheck s) (relayOn s)
    (switchState s) (programming s) (progVal s) v (relayPinLevel s)
    (WiFi_status s) (WiFi_RSSI s).
Definition set_relayPinLevel (v : level) (s : State) : State :=
  mkState (lastMsg s) (lastSwitchCheck s) (lastProgCheck s) (relayOn s)
    (switchState s) (programming s) (progVal s) (currColor s) v
    (WiFi_status s) (WiFi_RSSI s).
Definition set_radio (st rssi : Z) (s : State) : State :=
  mkState (lastMsg s) (lastSwitchCheck s) (lastProgCheck s) (relayOn s)
    (switchState s) (programming s) (progVal s) (currColor s)
    (relayPinLevel s) st rssi.

(** [digitalWrite(relayPin, v)]: latches the level and is observable. *)
Definition digitalWrite_relay (v : level) : M unit :=
  modify (set_relayPinLevel v) ;; emit (EDigitalWrite relayPin v).

(** [delay(ms)]: a blocking wait. *)
Definition delay (ms : Z) : M unit := emit (EDelay ms).

(* ===================================================================== *)
(** ** The sketch *)

(** [getQuality] (lines 69-78). *)
Definition getQuality : M Z :=
  st <- gets WiFi_status ;;
  if negb (st =? WL_CONNECTED) then ret (-1)
  else
    dBm <- gets WiFi_RSSI ;;
    if dBm <=? -100 then ret 0
    else if dBm >=? -50 then ret 100
    else ret (wrap32 (2 * wrap32 (dBm + 100))).

(** [publishStatus] (lines 249-285): builds [doc2] from the globals and
    publishes it. *)
Definition publishStatus : M unit :=
  r <- gets relayOn ;;
  q <- getQuality ;;
  p <- gets programming ;;
  c <- gets currColor ;;
  emit (EPublish
          (mkStatus (if r then "on" else "off")
                    q
                    (if p then "on" else "off")
                    (if c <? 1 then "Unknown" else colors_string_at c))).

(** [setRelay] (lines 296-309). *)
Definition setRelay : M unit :=
  p <- gets programming ;;
  if negb p then
    r <- gets relayOn ;;
    if r then digitalWrite_relay LOW ;; publishStatus
    else digitalWrite_relay HIGH ;; publishStatus
  else ret tt.

(** [setProgramming] (lines 80-100). *)
Definition setProgramming (state : bool) : M bool :=
  p <- gets programming ;;
  if negb (Bool.eqb p state) then
    (if state then
       modify (set_relayOn true) ;;
       setRelay ;;
       delay 500
     else ret tt) ;;
    modify (set_programming state) ;;
    publishStatus ;;
    ret true
  else ret false.

Definition maxColorNameSize : nat := 15.

(** The [for (i = 0; i < 15; ++i)] of [findColor], from index [i] with
    [todo] iterations left. *)
Fixpoint findColor_for (str : string) (i : nat) (todo : nat) : Z :=
  match todo with
  | O => -1
  | S todo' =>
      if strncmp str (nth i colors_string EmptyString) maxColorNameSize =? 0
      then Z.of_nat i
      else findColor_for str (S i) todo'
  end.

(** [findColor] (lines 102-119). *)
Definition findColor (str : string) : Z := findColor_for str 0 15.

(** What [deserializeJson] leaves in [doc], as far as [callback] looks at
    it: [doc["power"]], [doc["programming"][0]] and [doc["programming"][1]]
    read as [const char *] (null when absent or not a string). *)
Record JsonDoc : Type := mkDoc {
  doc_power : option string;
  doc_programming_0 : option string;
  doc_programming_1 : option string
}.

(** Lines 137-152 of [callback]: the power field. *)
Definition callback_power (power_j : option string) : M unit :=
  match power_j with
  | Some power_j =>
      if strncmp power_j "on" 2 =? 0 then
        modify (set_relayOn true) ;; setRelay
      else if strncmp power_j "off" 3 =? 0 then
        modify (set_relayOn false) ;; setRelay
      else ret tt
  | None => ret tt
  end.

(** Lines 155-177 of [callback]: the programming field. *)
Definition callback_programming (prog_j progColor_j : option string) : M unit :=
  match prog_j, progColor_j with
  | Some prog_j, Some progColor_j =>
      if strncmp prog_j "on" 2 =? 0 then
        modify (set_progVal (findColor progColor_j)) ;;
        v <- gets progVal ;;
        if v >? 0 then (_ <- setProgramming true ;; ret tt)
        else ret tt
      else if strncmp prog_j "off" 3 =? 0 then
        (_ <- setProgramming false ;; ret tt)
      else ret tt
  | _, _ => ret tt
  end.

(** [callback] (lines 121-179); [None] is a payload that fails to
    deserialize. *)
Definition callback (payload : option JsonDoc) : M unit :=
  match payload with
  | None => ret tt
  | Some doc =>
      callback_power (doc_power doc) ;;
      callback_programming (doc_programming_0 doc) (doc_programming_1 doc)
  end.

(** [togglePower] (lines 287-294).  The reading passes through [bool] and
    back to [int], which keeps 0 and 1 as they are. *)
Definition togglePower (currSwitchState : level) : M unit :=
  modify (set_switchState currSwitchState) ;;
  p <- gets programming ;;
  if negb p then
    r <- gets relayOn ;;
    modify (set_relayOn (negb r)) ;;
    setRelay
  else ret tt.

(** [toggleRelay] (lines 312-318): one programming pulse. *)
Definition toggleRelay (delVal : Z) : M unit :=
  digitalWrite_relay HIGH ;;
  delay delVal ;;
  digitalWrite_relay LOW.

(** A counting [for] loop whose body leaves its bound alone. *)
Fixpoint for_loop (n : nat) (body : M unit) : M unit :=
  match n with
  | O => ret tt
  | S n' => body ;; for_loop n' body
  end.

(** What one pass through [loop] takes from the outside: the messages
    [client.loop()] hands to [callback], what [millis()] returns, and what
    [digitalRead(switchPin)] would return. *)
Record Input : Type := mkInput {
  in_msgs : list (option JsonDoc);
  in_millis : Z;
  in_switch : level
}.

(** [client.loop()]: the pending messages go through [callback] in order.
    Any number of messages may be delivered in one pass; the runs exhibited
    below deliver at most one. *)
Fixpoint client_loop (msgs : list (option JsonDoc)) : M unit :=
  match msgs with
  | [] => ret tt
  | m :: rest => callback m ;; client_loop rest
  end.

(** Lines 330-333 of [loop]: the periodic status. *)
Definition loop_status (now : Z) : M unit :=
  p <- gets programming ;;
  lm <- gets lastMsg ;;
  if negb p && ((lm =? 0) || (sub32 now lm >? timeBetweenMessages)) then
    modify (set_lastMsg now) ;;
    publishStatus
  else ret tt.

(** Lines 336-352 of [loop]: the programming block. *)
Definition loop_programming (now : Z) : M unit :=
  p <- gets programming ;;
  lp <- gets lastProgCheck ;;
  if p && ((lp =? 0) || (sub32 now lp >? timeBetweenProgCheck)) then
    modify (set_lastProgCheck now) ;;
    n <- gets progVal ;;
    for_loop (Z.to_nat n) (toggleRelay 250 ;; delay 250) ;;
    v <- gets progVal ;;
    modify (set_currColor v) ;;
    modify (set_progVal 0) ;;
    modify (set_programming false) ;;
    publishStatus
  else ret tt.

(** Lines 355-360 of [loop]: the switch poll. *)
Definition loop_switch (now : Z) (reading : level) : M unit :=
  p <- gets programming ;;
  ls <- gets lastSwitchCheck ;;
  if negb p && ((ls =? 0) || (sub32 now ls >? timeBetweenSwitchCheck)) then
    modify (set_lastSwitchCheck now) ;;
    sw <- gets switchState ;;
    if negb (level_eqb reading sw) then togglePower reading else ret tt
  else ret tt.

(** [loop] from line 325 on: a pass once the MQTT client is connected.
    Lines 322-324, which call [reconnect] first when it is not, are added
    in [loop_pass]. *)
Definition loop (i : Input) : M unit :=
  client_loop (in_msgs i) ;;
  let now := wrap32 (in_millis i) in
  loop_status now ;;
  loop_programming now ;;
  loop_switch now (in_switch i).

(** The globals as initialised at lines 41-48, with the relay pin not yet
    driven (the relay is LOW-on, so it is off) and the radio as given. *)
Definition power_up (wifi_status rssi : Z) : State :=
  mkState 0 0 0 false LOW false 0 (-1) HIGH wifi_status rssi.

(** [setup] (lines 237-247) without its call of [setup_wifi] (line 244),
    which [setup_sketch] adds; [reading] is what [digitalRead(switchPin)]
    returns. *)
Definition setup (reading : level) : M unit :=
  modify (set_switchState reading) ;;
  digitalWrite_relay HIGH.

(** Successive passes through [loop]. *)
Fixpoint run (inputs : list Input) : M unit :=
  match inputs with
  | [] => ret tt
  | i :: rest => loop i ;; run rest
  end.

(** The states the sketch can be in between two passes through [loop]:
    the one [setup] leaves, and then pass after pass, with the radio free
    to change in between. *)
Inductive reachable : State -> Prop :=
| reach_setup (wifi_status rssi : Z) (reading : level) :
    reachable (exec (setup reading) (power_up wifi_status rssi))
| reach_radio (s : State) (wifi_status rssi : Z) :
    reachable s -> reachable (set_radio wifi_status rssi s)
| reach_loop (s : State) (i : Input) :
    reachable s -> reachable (exec (loop i) s).

(** The invariant of the run: while a programming request is pending or
    being served, the relay pin is on. *)
Definition relay_on_while_programming (s : State) : Prop :=
  programming s = true -> relayPinLevel s = LOW.

(** The relay writes and delays of a trace, without the publishes. *)
Definition is_publish (e : Event) : bool :=
  match e with EPublish _ => true | _ => false end.

Definition relay_view (t : list Event) : list Event :=
  filter (fun e => negb (is_publish e)) t.

Definition publishes (t : list Event) : list Status :=
  flat_map (fun e => match e with EPublish p => [p] | _ => [] end) t.

Definition relay_writes (t : list Event) : list level :=
  flat_map (fun e => match e with EDigitalWrite _ v => [v] | _ => [] end) t.

(** One programming pulse as it shows on the relay: off for 250 ms, on for
    250 ms. *)
Definition pulse : list Event :=
  [EDigitalWrite relayPin HIGH; EDelay 250; EDigitalWrite relayPin LOW; EDelay 250].

Fixpoint pulses (n : nat) : list Event :=
  match n with
  | O => []
  | S n' => pulse ++ pulses n'
  end.

(** A message that only carries ["programming": ["on", name]]. *)
Definition prog_on (name : string) : option JsonDoc :=
  Some (mkDoc None (Some "on") (Some name)).

(** A message that only carries ["power": v]. *)
Definition power_cmd (v : string) : option JsonDoc :=
  Some (mkDoc (Some v) None None).

(** What [publishStatus] would report in state [s]. *)
Definition status_of (s : State) : Status :=
  mkStatus (if relayOn s then "on" else "off")
           (result getQuality s)
           (if programming s then "on" else "off")
           (if currColor s <? 1 then "Unknown" else colors_string_at (currColor s)).

(** The timer test of the programming block at line 336. *)
Definition prog_gate_open (now : Z) (s : State) : Prop :=
  lastProgCheck s = 0 \/ sub32 now (lastProgCheck s) > timeBetweenProgCheck.

(** The state the programming block leaves behind when it runs. *)
Definition programmed (now : Z) (s : State) : State :=
  set_programming false
    (set_progVal 0
       (set_currColor (progVal s)
          (match Z.to_nat (progVal s) with
           | O => set_lastProgCheck now s
           | S _ => set_relayPinLevel LOW (set_lastProgCheck now s)
           end))).

(** Whether a status message says that programming is under way. *)
Definition reports_programming (p : Status) : bool :=
  String.eqb (st_programming p) "on".

(** The state [setup] leaves behind with the switch reading HIGH, the radio
    associated and a signal of -60 dBm. *)
Definition booted : State := exec (setup HIGH) (power_up WL_CONNECTED (-60)).

(** A run that leaves a programming request pending.  The first pass
    programs Blue one second after boot, which sets [lastProgCheck] to
    1000.  The second pass receives a request for Red when [millis()] has
    passed 2^31 (about 26.5 days of uptime), so that [now] is negative as a
    [long] and the timer test of line 336 fails: [programming] is raised
    and the block does not run. *)
Definition pass_blue : Input := mkInput [prog_on "Blue"] 1000 HIGH.
Definition pass_red_late : Input := mkInput [prog_on "Red"] 2294967296 HIGH.
Definition pending : State := exec (run [pass_blue; pass_red_late]) booted.

(* ===================================================================== *)
(** ** Further notions used to state what the sketch does *)

(** A string without an embedded NUL: the C string it stands for is the
    whole of it. *)
Fixpoint nul_free (s : string) : bool :=
  match s with
  | EmptyString => true
  | String _ r => negb (char_at s =? 0) && nul_free r
  end.

(** The time a trace spends in [delay]. *)
Fixpoint total_delay (t : list Event) : Z :=
  match t with
  | [] => 0
  | EDelay ms :: rest => ms + total_delay rest
  | _ :: rest => total_delay rest
  end.

(** The pulse count and the recorded colour stay within -1..14. *)
Definition codes_in_range (s : State) : Prop :=
  -1 <= progVal s <= 14 /\ -1 <= currColor s <= 14.

(** Whenever the sketch believes the light is on, or is programming, the
    relay pin is on.  (A property of the states between the steps of a
    pass; inside the pulse train the pin goes off and on.) *)
Definition light_on_as_believed (s : State) : Prop :=
  relayOn s = true \/ programming s = true -> relayPinLevel s = LOW.

(** The timer test of the switch poll at line 355. *)
Definition switch_timer_elapsed (now : Z) (s : State) : Prop :=
  lastSwitchCheck s = 0 \/
  sub32 now (lastSwitchCheck s) > timeBetweenSwitchCheck.

(* ===================================================================== *)
(** ** Device identity, topics and the MQTT session (lines 181-235) *)

(** The digits [utoa] uses. *)
Definition hex_digits : string := "0123456789abcdef".

Definition hex_digit (d : Z) : ascii :=
  match String.get (Z.to_nat d) hex_digits with
  | Some c => c
  | None => "0"%char
  end.

(** [String(v, 16)] for a value 0..255: lower-case hexadecimal without a
    leading zero. *)
Definition String_16 (v : Z) : string :=
  if v <? 16 then String (hex_digit v) EmptyString
  else String (hex_digit (v / 16)) (String (hex_digit (v mod 16)) EmptyString).

(** The [for (int i = 0; i < 6; ++i)] of [macToStr], from index [i] with
    [todo] iterations left; [mac] is the six-byte array. *)
Fixpoint macToStr_for (mac : list Z) (i : nat) (todo : nat) : string :=
  match todo with
  | O => EmptyString
  | S todo' =>
      String.append (String_16 (nth i mac 0))
        (String.append (if (i <? 5)%nat then ":" else EmptyString)
           (macToStr_for mac (S i) todo'))
  end.

(** [macToStr] (lines 181-190). *)
Definition macToStr (mac : list Z) : string := macToStr_for mac 0 6.

(** [composeClientID] (lines 192-199); [mac] is what [WiFi.macAddress]
    fills in. *)
Definition composeClientID (mac : list Z) : string :=
  String.append "esp-" (macToStr mac).

(** The topic [publishStatus] publishes on (lines 273-277); [topic] is the
    base topic of [credentials.h]. *)
Definition pubTopic (topic : string) (mac : list Z) : string :=
  String.append topic
    (String.append "/" (String.append (composeClientID mac) "/out")).

(** The topic [reconnect] subscribes to (lines 217-221). *)
Definition subscription (topic : string) (mac : list Z) : string :=
  String.append topic
    (String.append "/" (String.append (composeClientID mac) "/in")).

(** The client id of one connection attempt (lines 206-208): the device's
    id, a dash, and the low byte of [micros()] in hexadecimal. *)
Definition attempt_clientId (mac : list Z) (us : Z) : string :=
  String.append (composeClientID mac)
    (String.append "-" (String_16 (Z.land us 255))).

(** What [reconnect] does on the MQTT client and the clock. *)
Inductive MqttEvent : Type :=
| MConnect (clientId : string)
| MPublish (topic payload : string) (retained : bool)
| MSubscribe (topic : string)
| MDelay (ms : Z).

(** The [while (!client.connected())] of [reconnect] (lines 203-234) from
    a disconnected client.  Each element of [attempts] is one turn of the
    loop: what [micros()] returns and whether [client.connect] succeeds;
    the client counts as connected from a successful [connect] on.  The
    result says whether the loop has ended; it has not when the attempts
    listed all fail. *)
Fixpoint reconnect_loop (topic : string) (mac : list Z)
         (attempts : list (Z * bool)) : list MqttEvent * bool :=
  match attempts with
  | [] => ([], false)
  | (us, ok) :: rest =>
      let clientId := attempt_clientId mac us in
      if ok then
        ([MConnect clientId;
          MPublish topic (String.append "connected " (composeClientID mac)) true;
          MSubscribe (subscription topic mac)],
         true)
      else
        let '(events, done) := reconnect_loop topic mac rest in
        (MConnect clientId :: MDelay 5000 :: events, done)
  end.

(** [reconnect] (lines 201-235); [connected] is what [client.connected()]
    says on entry. *)
Definition reconnect (topic : string) (mac : list Z) (connected : bool)
           (attempts : list (Z * bool)) : list MqttEvent * bool :=
  if connected then ([], true) else reconnect_loop topic mac attempts.

(** A MAC address: six bytes. *)
Definition is_mac (mac : list Z) : Prop :=
  List.length mac = 6%nat /\ Forall (fun b => 0 <= b < 256) mac.

(** The time a run of [reconnect] spends in [delay]. *)
Fixpoint mqtt_delay (t : list MqttEvent) : Z :=
  match t with
  | [] => 0
  | MDelay ms :: rest => ms + mqtt_delay rest
  | _ :: rest => mqtt_delay rest
  end.

(** What the failed attempts of a run leave in the trace. *)
Definition failed_attempts (mac : list Z) (fails : list (Z * bool))
  : list MqttEvent :=
  flat_map (fun a => [MConnect (attempt_clientId mac (fst a)); MDelay 5000])
           fails.

(* ===================================================================== *)
(** ** [setup] and [loop] in full *)

(** The [while (WiFi.status() != WL_CONNECTED)] of [setup_wifi] (lines
    59-62).  [polls] lists what [WiFi.status()] answers from one test to
    the next; the state follows the radio.  The result says whether the
    loop has ended; it has not when no answer listed is [WL_CONNECTED]. *)
Fixpoint wifi_wait (polls : list Z) : M bool :=
  match polls with
  | [] => ret false
  | st :: rest =>
      modify (fun s => set_radio st (WiFi_RSSI s) s) ;;
      if negb (st =? WL_CONNECTED) then delay 500 ;; wifi_wait rest
      else ret true
  end.

(** [setup_wifi] (lines 52-67). *)
Definition setup_wifi (polls : list Z) : M bool :=
  delay 10 ;; wifi_wait polls.

(** [setup] (lines 237-247) in full: the pins first, then the wait for the
    WiFi network. *)
Definition setup_sketch (reading : level) (polls : list Z) : M bool :=
  setup reading ;; setup_wifi polls.

(** What a whole pass through [loop] shows: what [reconnect] does on the
    MQTT session, then what the rest of the pass does on the device. *)
Inductive PassEvent : Type :=
| Session (e : MqttEvent)
| Device (e : Event).

(** [loop] (lines 320-361) in full.  [connected] is what
    [client.connected()] answers at line 322 and [attempts] are the
    connection attempts open to [reconnect].  There is no result as long
    as [reconnect] has not returned. *)
Definition loop_pass (topic : string) (mac : list Z) (connected : bool)
           (attempts : list (Z * bool)) (i : Input) (s : State)
  : option (State * list PassEvent) :=
  let '(session, returned) := reconnect topic mac connected attempts in
  if returned
  then Some (exec (loop i) s,
             map Session session ++ map Device (trace (loop i) s))
  else None.

(** The time a whole pass spends in [delay]. *)
Fixpoint pass_delay (t : list PassEvent) : Z :=
  match t with
  | [] => 0
  | Session (MDelay ms) :: rest => ms + pass_delay rest
  | Device (EDelay ms) :: rest => ms + pass_delay rest
  | _ :: rest => pass_delay rest
  end.

(** The level of the relay pin after a trace, from the level before it. *)
Fixpoint pin_after (pin : level) (t : list Event) : level :=
  match t with
  | [] => pin
  | EDigitalWrite _ v :: rest => pin_after v rest
  | _ :: rest => pin_after pin rest
  end.

(** No status in the trace reports power "on" at a moment when the relay
    pin is off; [pin] is the level of the pin when the trace begins. *)
Fixpoint power_on_reports_true (pin : level) (t : list Event) : Prop :=
  match t with
  | [] => True
  | EDigitalWrite _ v :: rest => power_on_reports_true v rest
  | EDelay _ :: rest => power_on_reports_true pin rest
  | EPublish p :: rest =>
      (st_power p = "on" -> pin = LOW) /\ power_on_reports_true pin rest
  end.

(** What a step of a pass owes to the reports of power "on": started in a
    state in which the pin is on whenever the sketch believes so, it
    publishes no power "on" while the pin is off, the pin ends at the
    level its last write gave it, and the state it leaves is again one in
    which the pin is on whenever the sketch believes so. *)
Definition reports_power_truly {A : Type} (m : M A) : Prop :=
  forall s : State,
    light_on_as_believed s ->
    power_on_reports_true (relayPinLevel s) (trace m s) /\
    pin_after (relayPinLevel s) (trace m s) = relayPinLevel (exec m s) /\
    light_on_as_believed (exec m s).

(* ===================================================================== *)
(** ** Machine integers and strings: basic facts *)

Arguments wrap32 : simpl never.
Arguments sub32 : simpl never.

Lemma wrap32_small (z : Z) :
  -2147483648 <= z < 2147483648 -> wrap32 z = z.
Proof.
  intros Hz. unfold wrap32.
  rewrite Z.mod_small by lia. lia.
Qed.

Lemma strncmp_S (s1 s2 : string) (n : nat) :
  strncmp s1 s2 (S n) =
  if char_at s1 =? char_at s2
  then (if char_at s1 =? 0 then 0 else strncmp (advance s1) (advance s2) n)
  else char_at s1 - char_at s2.
Proof. reflexivity. Qed.

(** [strncmp] returns zero exactly when the two strings show the same
    bytes within the bound. *)
Lemma strncmp_zero_iff (n : nat) :
  forall s1 s2 : string,
    strncmp s1 s2 n = 0 <-> c_bytes n s1 = c_bytes n s2.
Proof.
  induction n as [ | n IH]; intros s1 s2; [split; reflexivity | ].
  rewrite strncmp_S. cbn [c_bytes].
  destruct (Z.eqb_spec (char_at s1) (char_at s2)) as [Heq | Hne].
  - rewrite <- Heq.
    destruct (Z.eqb_spec (char_at s1) 0) as [H0 | H0]; [split; reflexivity | ].
    rewrite IH. split; [intros ->; reflexivity | intros H; injection H; auto].
  - split; [intros H; lia | ].
    destruct (Z.eqb_spec (char_at s1) 0) as [H1 | H1],
             (Z.eqb_spec (char_at s2) 0) as [H2 | H2];
      intros H; try discriminate H; [lia | ].
    injection H as Hhead _. contradiction.
Qed.

(* ===================================================================== *)
(** ** The colour table *)

Lemma findColor_at_code (code : Z) :
  1 <= code <= 14 -> findColor (colors_string_at code) = code.
Proof.
  intros Hcode.
  assert (Hcases :
    code = 1 \/ code = 2 \/ code = 3 \/ code = 4 \/ code = 5 \/ code = 6 \/
    code = 7 \/ code = 8 \/ code = 9 \/ code = 10 \/ code = 11 \/
    code = 12 \/ code = 13 \/ code = 14) by lia.
  repeat (destruct Hcases as [-> | Hcases]; [vm_compute; reflexivity | ]).
  subst code. vm_compute. reflexivity.
Qed.

(** C4.  For every colour code 1..14, looking the name of the code up
    again gives the code back: [findColor(colors_string[code]) == code]. *)
Theorem findColor_colors_string_roundtrip :
  forall code : Z,
    1 <= code <= 14 -> findColor (colors_string_at code) = code.
Proof.
  intros code Hcode. apply findColor_at_code. exact Hcode.
Qed.

Lemma findColor_colors_string_roundtrip_witness :
  1 <= Blue <= 14 /\ findColor (colors_string_at Blue) = Blue.
Proof.
  split.
  - unfold Blue. lia.
  - apply (findColor_colors_string_roundtrip Blue). unfold Blue. lia.
Defined.

(* ===================================================================== *)
(** ** Running the monad *)

Lemma bind_run {A B : Type} (m : M A) (k : A -> M B) (s s1 s2 : State)
      (a : A) (b : B) (t1 t2 : list Event) :
  m s = (a, s1, t1) -> k a s1 = (b, s2, t2) ->
  bind m k s = (b, s2, t1 ++ t2).
Proof.
  intros Hm Hk. unfold bind. rewrite Hm, Hk. reflexivity.
Qed.

Lemma exec_bind {A B : Type} (m : M A) (k : A -> M B) (s : State) :
  exec (bind m k) s = exec (k (result m s)) (exec m s).
Proof.
  unfold exec, result, bind.
  destruct (m s) as [[a s1] t1]. simpl.
  destruct (k a s1) as [[b s2] t2]. reflexivity.
Qed.

Lemma trace_bind {A B : Type} (m : M A) (k : A -> M B) (s : State) :
  trace (bind m k) s = trace m s ++ trace (k (result m s)) (exec m s).
Proof.
  unfold exec, result, trace, bind.
  destruct (m s) as [[a s1] t1]. simpl.
  destruct (k a s1) as [[b s2] t2]. reflexivity.
Qed.

(** Reduces field reads of updated states. *)
Ltac fields :=
  cbn [lastMsg lastSwitchCheck lastProgCheck relayOn switchState programming
       progVal currColor relayPinLevel WiFi_status WiFi_RSSI
       set_lastMsg set_lastSwitchCheck set_lastProgCheck set_relayOn
       set_switchState set_programming set_progVal set_currColor
       set_relayPinLevel set_radio].

(** Unfolds the monad's plumbing and computes. *)
Ltac run_fw :=
  cbv [bind gets modify emit ret delay digitalWrite_relay exec trace result];
  cbn [fst snd app].

(* ===================================================================== *)
(** ** Link quality *)

Lemma getQuality_run (s : State) :
  getQuality s = (result getQuality s, s, []).
Proof.
  unfold result, getQuality. run_fw.
  destruct (negb (WiFi_status s =? WL_CONNECTED)); [reflexivity | ].
  destruct (WiFi_RSSI s <=? -100); [reflexivity | ].
  destruct (WiFi_RSSI s >=? -50); reflexivity.
Qed.

Lemma publishStatus_run (s : State) :
  publishStatus s = (tt, s, [EPublish (status_of s)]).
Proof.
  unfold publishStatus, status_of.
  cbv [bind gets emit]. rewrite getQuality_run. reflexivity.
Qed.

(** C9 (as amended).  The link quality that a status message carries is
    what [getQuality] returns.  While the radio is associated it is in
    [0,100] and follows the piecewise mapping of the RSSI: 0 at -100 dBm
    or below, 100 at -50 dBm or above, [2*(dBm+100)] in between; while the
    radio is not associated it is the sentinel -1. *)
Theorem getQuality_mapping :
  forall s : State,
    let q := result getQuality s in
    let dBm := WiFi_RSSI s in
    publishes (trace publishStatus s) = [status_of s] /\
    st_RSSI (status_of s) = q /\
    (WiFi_status s = WL_CONNECTED ->
       0 <= q <= 100 /\
       (dBm <= -100 -> q = 0) /\
       (dBm >= -50 -> q = 100) /\
       (-100 < dBm < -50 -> q = 2 * (dBm + 100))) /\
    (WiFi_status s <> WL_CONNECTED -> q = -1).
Proof.
  intros s q dBm.
  split; [unfold trace; rewrite publishStatus_run; reflexivity | ].
  split; [reflexivity | ].
  subst q dBm. unfold result, getQuality. run_fw.
  split.
  - intros Hst. rewrite Hst. cbn [Z.eqb WL_CONNECTED Pos.eqb negb].
    destruct (Z.leb_spec (WiFi_RSSI s) (-100)) as [Hlo | Hlo]; cbn [fst].
    + repeat split; intros; lia.
    + destruct (Z.geb_spec (WiFi_RSSI s) (-50)) as [Hhi | Hhi]; cbn [fst].
      * repeat split; intros; lia.
      * rewrite (wrap32_small (WiFi_RSSI s + 100)) by lia.
        rewrite wrap32_small by lia.
        repeat split; intros; lia.
  - intros Hst.
    destruct (Z.eqb_spec (WiFi_status s) WL_CONNECTED) as [Heq | Hne];
      [contradiction | reflexivity].
Qed.

Lemma getQuality_mapping_witness :
  WiFi_status booted = WL_CONNECTED /\
  result getQuality (set_radio WL_CONNECTED (-75) booted) = 50.
Proof.
  split; [reflexivity | ].
  pose proof (getQuality_mapping (set_radio WL_CONNECTED (-75) booted)) as H.
  cbv zeta in H.
  destruct H as [_ [_ [Hconn _]]].
  destruct (Hconn eq_refl) as [_ [_ [_ Hmid]]].
  rewrite Hmid; [reflexivity | cbn; lia].
Defined.

(** C9 as stated fails when the radio is not associated: the quality, and
    with it the RSSI field of the published status, is -1. *)
Lemma getQuality_not_connected_counterexample :
  let s := set_radio WL_IDLE_STATUS (-75) booted in
  result getQuality s = -1 /\
  map st_RSSI (publishes (trace publishStatus s)) = [-1] /\
  ~ (0 <= result getQuality s <= 100) /\
  result getQuality s <> 2 * (WiFi_RSSI s + 100).
Proof.
  cbv zeta. repeat split; try reflexivity.
  - vm_compute. intros [H _]. apply H. reflexivity.
  - vm_compute. discriminate.
Qed.

(* ===================================================================== *)
(** ** What each function does to the state and to the trace *)

Lemma setRelay_run (s : State) :
  setRelay s =
  if programming s then (tt, s, [])
  else
    let v := if relayOn s then LOW else HIGH in
    (tt, set_relayPinLevel v s,
     [EDigitalWrite relayPin v; EPublish (status_of (set_relayPinLevel v s))]).
Proof.
  unfold setRelay. cbv [bind gets].
  destruct (programming s) eqn:Hp; cbn [negb]; [reflexivity | ].
  destruct (relayOn s) eqn:Hr; cbv [digitalWrite_relay bind modify emit];
    rewrite publishStatus_run; reflexivity.
Qed.

Lemma setProgramming_run (state : bool) (s : State) :
  setProgramming state s =
  if Bool.eqb (programming s) state then (false, s, [])
  else if state then
    let s1 := set_relayPinLevel LOW (set_relayOn true s) in
    let s2 := set_programming true s1 in
    (true, s2,
     [EDigitalWrite relayPin LOW; EPublish (status_of s1);
      EDelay 500; EPublish (status_of s2)])
  else
    let s1 := set_programming false s in
    (true, s1, [EPublish (status_of s1)]).
Proof.
  unfold setProgramming. cbv [bind gets].
  destruct (programming s) eqn:Hp, state; cbn [Bool.eqb negb]; try reflexivity.
  - cbv [ret modify bind]. rewrite publishStatus_run. reflexivity.
  - cbv [ret modify bind delay emit]. rewrite setRelay_run.
    fields. rewrite Hp.
    cbv zeta. rewrite publishStatus_run. reflexivity.
Qed.

Lemma toggleRelay_run (delVal : Z) (s : State) :
  toggleRelay delVal s =
  (tt, set_relayPinLevel LOW s,
   [EDigitalWrite relayPin HIGH; EDelay delVal; EDigitalWrite relayPin LOW]).
Proof. reflexivity. Qed.

Lemma for_loop_pulses (n : nat) (s : State) :
  for_loop n (toggleRelay 250 ;; delay 250) s =
  (tt, match n with O => s | S _ => set_relayPinLevel LOW s end, pulses n).
Proof.
  revert s. induction n as [ | n IH]; intros s; [reflexivity | ].
  cbn [for_loop pulses].
  apply bind_run with (a := tt) (s1 := set_relayPinLevel LOW s); [reflexivity | ].
  rewrite IH. destruct n; reflexivity.
Qed.

Lemma togglePower_run (currSwitchState : level) (s : State) :
  togglePower currSwitchState s =
  if programming s then (tt, set_switchState currSwitchState s, [])
  else
    let v := if relayOn s then HIGH else LOW in
    let s' := set_relayPinLevel v
                (set_relayOn (negb (relayOn s))
                   (set_switchState currSwitchState s)) in
    (tt, s', [EDigitalWrite relayPin v; EPublish (status_of s')]).
Proof.
  unfold togglePower. cbv [bind gets modify].
  fields.
  destruct (programming s) eqn:Hp; cbn [negb]; [reflexivity | ].
  rewrite setRelay_run. fields. rewrite Hp.
  destruct (relayOn s); reflexivity.
Qed.

Lemma loop_programming_run (now : Z) (s : State) :
  loop_programming now s =
  if programming s &&
     ((lastProgCheck s =? 0) || (sub32 now (lastProgCheck s) >? timeBetweenProgCheck))
  then (tt, programmed now s,
        pulses (Z.to_nat (progVal s)) ++ [EPublish (status_of (programmed now s))])
  else (tt, s, []).
Proof.
  unfold loop_programming. cbv [bind gets].
  match goal with |- context [if ?c then _ else _] => destruct c end;
    [ | reflexivity].
  cbv [modify]. fields.
  rewrite for_loop_pulses. rewrite publishStatus_run.
  unfold programmed.
  destruct (Z.to_nat (progVal s)); reflexivity.
Qed.

Lemma loop_status_run (now : Z) (s : State) :
  loop_status now s =
  if negb (programming s) &&
     ((lastMsg s =? 0) || (sub32 now (lastMsg s) >? timeBetweenMessages))
  then (tt, set_lastMsg now s, [EPublish (status_of (set_lastMsg now s))])
  else (tt, s, []).
Proof.
  unfold loop_status. cbv [bind gets].
  match goal with |- context [if ?c then _ else _] => destruct c end;
    [ | reflexivity].
  cbv [modify]. rewrite publishStatus_run. reflexivity.
Qed.

Lemma loop_switch_run (now : Z) (reading : level) (s : State) :
  loop_switch now reading s =
  if negb (programming s) &&
     ((lastSwitchCheck s =? 0) ||
      (sub32 now (lastSwitchCheck s) >? timeBetweenSwitchCheck))
  then
    if level_eqb reading (switchState s)
    then (tt, set_lastSwitchCheck now s, [])
    else
      let v := if relayOn s then HIGH else LOW in
      let s' := set_relayPinLevel v
                  (set_relayOn (negb (relayOn s))
                     (set_switchState reading (set_lastSwitchCheck now s))) in
      (tt, s', [EDigitalWrite relayPin v; EPublish (status_of s')])
  else (tt, s, []).
Proof.
  unfold loop_switch. cbv [bind gets].
  destruct (programming s) eqn:Hp; cbn [negb andb]; [reflexivity | ].
  match goal with |- context [if ?c then _ else _] => destruct c end;
    [ | reflexivity].
  cbv [modify]. fields.
  destruct (level_eqb reading (switchState s)); cbn [negb]; [reflexivity | ].
  rewrite togglePower_run. fields. rewrite Hp.
  reflexivity.
Qed.

Arguments strncmp : simpl never.

Lemma callback_power_run (power_j : option string) (s : State) :
  callback_power power_j s =
  match power_j with
  | Some v =>
      if strncmp v "on" 2 =? 0 then setRelay (set_relayOn true s)
      else if strncmp v "off" 3 =? 0 then setRelay (set_relayOn false s)
      else (tt, s, [])
  | None => (tt, s, [])
  end.
Proof.
  destruct power_j as [v | ]; [ | reflexivity].
  unfold callback_power.
  destruct (strncmp v "on" 2 =? 0).
  - cbv [bind modify]. destruct (setRelay (set_relayOn true s)) as [[[] s1] t1].
    reflexivity.
  - destruct (strncmp v "off" 3 =? 0); [ | reflexivity].
    cbv [bind modify]. destruct (setRelay (set_relayOn false s)) as [[[] s1] t1].
    reflexivity.
Qed.

Lemma callback_programming_run (prog_j progColor_j : option string) (s : State) :
  callback_programming prog_j progColor_j s =
  match prog_j, progColor_j with
  | Some v, Some name =>
      if strncmp v "on" 2 =? 0 then
        let s0 := set_progVal (findColor name) s in
        if findColor name >? 0
        then (tt, exec (setProgramming true) s0, trace (setProgramming true) s0)
        else (tt, s0, [])
      else if strncmp v "off" 3 =? 0 then
        (tt, exec (setProgramming false) s, trace (setProgramming false) s)
      else (tt, s, [])
  | _, _ => (tt, s, [])
  end.
Proof.
  destruct prog_j as [v | ], progColor_j as [name | ]; try reflexivity.
  unfold callback_programming.
  destruct (strncmp v "on" 2 =? 0).
  - cbv [bind modify gets]. fields. cbv zeta.
    destruct (findColor name >? 0); [ | reflexivity].
    unfold exec, trace.
    destruct (setProgramming true (set_progVal (findColor name) s))
      as [[b s1] t1].
    cbn [fst snd ret]. rewrite app_nil_r. reflexivity.
  - destruct (strncmp v "off" 3 =? 0); [ | reflexivity].
    cbv [bind]. unfold exec, trace.
    destruct (setProgramming false s) as [[b s1] t1].
    cbn [fst snd ret]. rewrite app_nil_r. reflexivity.
Qed.

(** A programming request for a table name, received while not
    programming: the relay is forced on, the fixture is given 500 ms to
    settle, and [programming] is raised with the pulse count pending. *)
Lemma callback_prog_on_run (k : Z) (s : State) :
  1 <= k <= 14 -> programming s = false ->
  callback (prog_on (colors_string_at k)) s =
  let s1 := set_relayPinLevel LOW (set_relayOn true (set_progVal k s)) in
  let s2 := set_programming true s1 in
  (tt, s2,
   [EDigitalWrite relayPin LOW; EPublish (status_of s1);
    EDelay 500; EPublish (status_of s2)]).
Proof.
  intros Hk Hp.
  unfold callback, prog_on. cbn [doc_power doc_programming_0 doc_programming_1].
  apply bind_run with (a := tt) (s1 := s) (t1 := []);
    [apply callback_power_run | ].
  rewrite callback_programming_run.
  replace (strncmp "on" "on" 2 =? 0) with true by reflexivity.
  rewrite (findColor_at_code k Hk). cbv zeta.
  replace (k >? 0) with true by (symmetry; apply Z.gtb_lt; lia).
  unfold exec, trace. rewrite setProgramming_run. fields. rewrite Hp.
  reflexivity.
Qed.

(* ===================================================================== *)
(** ** One pass through [loop] *)

Lemma client_loop_single (m : option JsonDoc) (s : State) :
  client_loop [m] s = callback m s.
Proof.
  cbn [client_loop]. unfold bind.
  destruct (callback m s) as [[[] s1] t1]. cbn [ret].
  rewrite app_nil_r. reflexivity.
Qed.

Lemma loop_exec (i : Input) (s : State) :
  exec (loop i) s =
  exec (loop_switch (wrap32 (in_millis i)) (in_switch i))
    (exec (loop_programming (wrap32 (in_millis i)))
       (exec (loop_status (wrap32 (in_millis i)))
          (exec (client_loop (in_msgs i)) s))).
Proof.
  unfold loop. cbv zeta. rewrite !exec_bind. reflexivity.
Qed.

Lemma loop_trace (i : Input) (s : State) :
  let now := wrap32 (in_millis i) in
  let s1 := exec (client_loop (in_msgs i)) s in
  let s2 := exec (loop_status now) s1 in
  let s3 := exec (loop_programming now) s2 in
  trace (loop i) s =
  trace (client_loop (in_msgs i)) s ++ trace (loop_status now) s1 ++
  trace (loop_programming now) s2 ++ trace (loop_switch now (in_switch i)) s3.
Proof.
  unfold loop. cbv zeta. rewrite !trace_bind. reflexivity.
Qed.

Lemma prog_gate_open_test (now : Z) (s : State) :
  prog_gate_open now s ->
  (lastProgCheck s =? 0) ||
  (sub32 now (lastProgCheck s) >? timeBetweenProgCheck) = true.
Proof.
  intros [H0 | Hgt].
  - rewrite H0. reflexivity.
  - apply orb_true_iff. right. apply Z.gtb_lt. lia.
Qed.

(** The switch poll touches neither the colour nor the programming flag nor
    the pending pulse count. *)
Lemma loop_switch_keeps (now : Z) (reading : level) (s : State) :
  let s' := exec (loop_switch now reading) s in
  currColor s' = currColor s /\ programming s' = programming s /\
  progVal s' = progVal s.
Proof.
  unfold exec. rewrite loop_switch_run.
  destruct (negb (programming s) && _); [ | repeat split].
  destruct (level_eqb reading (switchState s)); repeat split.
Qed.

Lemma loop_status_while_programming (now : Z) (s : State) :
  programming s = true -> loop_status now s = (tt, s, []).
Proof.
  intros Hp. rewrite loop_status_run, Hp. reflexivity.
Qed.

Lemma loop_programming_open (now : Z) (s : State) :
  programming s = true -> prog_gate_open now s ->
  loop_programming now s =
  (tt, programmed now s,
   pulses (Z.to_nat (progVal s)) ++ [EPublish (status_of (programmed now s))]).
Proof.
  intros Hp Hgate. rewrite loop_programming_run, Hp.
  rewrite (prog_gate_open_test now s Hgate). reflexivity.
Qed.

Lemma colors_string_at_code_listed (k : Z) :
  1 <= k <= 14 -> (k <? 1) = false.
Proof. intros Hk. apply Z.ltb_ge. lia. Qed.

(* ===================================================================== *)
(** ** The programming sequence *)

(** C2.  For every colour code [k] in 1..14 and whatever colour was
    recorded before (the unknown boot value included): a programming
    request for the name of [k], followed by the programming block of
    [loop], ends with [currColor == k], [programming == false] and
    [progVal == 0], and the block's last action, right after the [k]
    pulses, is the one status report of the completion; the pass through
    [loop] that runs them ends in the same values. *)
Theorem programming_runs_to_completion :
  forall (s : State) (k ms : Z) (reading : level),
    1 <= k <= 14 ->
    programming s = false ->
    prog_gate_open (wrap32 ms) s ->
    let now := wrap32 ms in
    let s1 := exec (callback (prog_on (colors_string_at k))) s in
    let s2 := exec (loop_programming now) s1 in
    let s3 := exec (loop (mkInput [prog_on (colors_string_at k)] ms reading)) s in
    (programming s1 = true /\ progVal s1 = k) /\
    (currColor s2 = k /\ programming s2 = false /\ progVal s2 = 0) /\
    trace (loop_programming now) s1 =
      pulses (Z.to_nat k) ++ [EPublish (status_of s2)] /\
    (st_programming (status_of s2) = "off" /\
     st_color (status_of s2) = colors_string_at k) /\
    (currColor s3 = k /\ programming s3 = false /\ progVal s3 = 0).
Proof.
  intros s k ms reading Hk Hp Hgate now s1 s2 s3.
  assert (Hs1 : s1 = set_programming true
                       (set_relayPinLevel LOW (set_relayOn true (set_progVal k s)))).
  { subst s1. unfold exec. rewrite (callback_prog_on_run k s Hk Hp). reflexivity. }
  assert (Hgate1 : prog_gate_open now s1).
  { rewrite Hs1. exact Hgate. }
  assert (Hp1 : programming s1 = true) by (rewrite Hs1; reflexivity).
  assert (Hv1 : progVal s1 = k) by (rewrite Hs1; reflexivity).
  assert (Hrun : loop_programming now s1 =
                 (tt, programmed now s1,
                  pulses (Z.to_nat k) ++ [EPublish (status_of (programmed now s1))])).
  { rewrite (loop_programming_open now s1 Hp1 Hgate1), Hv1. reflexivity. }
  assert (Hs2 : s2 = programmed now s1).
  { subst s2. unfold exec. rewrite Hrun. reflexivity. }
  assert (Hc2 : currColor s2 = k /\ programming s2 = false /\ progVal s2 = 0).
  { rewrite Hs2. unfold programmed. fields. auto. }
  split; [auto | ]. split; [exact Hc2 | ].
  split; [unfold trace; rewrite Hrun, Hs2; reflexivity | ].
  split.
  { destruct Hc2 as [Hc [Hpf _]]. unfold status_of.
    cbn [st_programming st_color]. rewrite Hc, Hpf.
    rewrite (colors_string_at_code_listed k Hk). auto. }
  assert (Hs3 : s3 = exec (loop_switch now reading) s2).
  { subst s3. rewrite loop_exec. cbn [in_msgs in_millis in_switch]. fold now.
    replace (exec (client_loop [prog_on (colors_string_at k)]) s) with s1
      by (unfold s1, exec; rewrite client_loop_single; reflexivity).
    replace (exec (loop_status now) s1) with s1
      by (unfold exec; rewrite (loop_status_while_programming now s1 Hp1);
          reflexivity).
    reflexivity. }
  destruct (loop_switch_keeps now reading s2) as [Hc [Hpr Hv]].
  rewrite Hs3.
  rewrite Hc, Hpr, Hv. exact Hc2.
Qed.

Lemma programming_runs_to_completion_witness :
  (1 <= Blue <= 14) /\
  programming booted = false /\
  prog_gate_open (wrap32 1000) booted /\
  currColor (exec (loop (mkInput [prog_on (colors_string_at Blue)] 1000 HIGH)) booted)
  = Blue.
Proof.
  assert (Hk : 1 <= Blue <= 14) by (unfold Blue; lia).
  assert (Hp : programming booted = false) by reflexivity.
  assert (Hg : prog_gate_open (wrap32 1000) booted) by (left; reflexivity).
  split; [exact Hk | ]. split; [exact Hp | ]. split; [exact Hg | ].
  pose proof (programming_runs_to_completion booted Blue 1000 HIGH Hk Hp Hg) as H.
  cbv zeta in H.
  destruct H as [_ [_ [_ [_ [Hc _]]]]]. exact Hc.
Defined.

Lemma relay_view_app (t1 t2 : list Event) :
  relay_view (t1 ++ t2) = relay_view t1 ++ relay_view t2.
Proof. apply filter_app. Qed.

Lemma relay_view_pulses (n : nat) : relay_view (pulses n) = pulses n.
Proof.
  induction n as [ | n IH]; [reflexivity | ].
  cbn [pulses]. rewrite relay_view_app, IH. reflexivity.
Qed.

Lemma relay_writes_app (t1 t2 : list Event) :
  relay_writes (t1 ++ t2) = relay_writes t1 ++ relay_writes t2.
Proof. apply flat_map_app. Qed.

Lemma publishes_app (t1 t2 : list Event) :
  publishes (t1 ++ t2) = publishes t1 ++ publishes t2.
Proof. apply flat_map_app. Qed.

Lemma publishes_pulses (n : nat) : publishes (pulses n) = [].
Proof.
  induction n as [ | n IH]; [reflexivity | ].
  cbn [pulses]. rewrite publishes_app, IH. reflexivity.
Qed.

Lemma relay_writes_pulses_S (n : nat) :
  relay_writes (pulses (S n)) = HIGH :: LOW :: relay_writes (pulses n).
Proof. cbn [pulses]. rewrite relay_writes_app. reflexivity. Qed.

(** Every pulse train that is not empty ends with the relay driven on. *)
Lemma relay_writes_pulses_last (n : nat) :
  last (relay_writes (pulses (S n))) HIGH = LOW.
Proof.
  induction n as [ | n IH]; [reflexivity | ].
  rewrite relay_writes_pulses_S. rewrite relay_writes_pulses_S in IH |- *.
  exact IH.
Qed.

(** C3.  The programming sequence for code [k]: the request forces the
    relay on ([relayOn] set, the pin written on) and waits 500 ms; the
    programming block then emits exactly [k] pulses, each one the relay
    off for 250 ms and then on for 250 ms.  These are all the relay
    writes and delays of the sequence, in this order; in the pass through
    [loop] that runs it, the only other relay activity is what the switch
    poll does after the sequence is over. *)
Theorem programming_sequence_shape :
  forall (s : State) (k ms : Z) (reading : level),
    1 <= k <= 14 ->
    programming s = false ->
    prog_gate_open (wrap32 ms) s ->
    let now := wrap32 ms in
    let start := callback (prog_on (colors_string_at k)) in
    let s1 := exec start s in
    let s2 := exec (loop_programming now) s1 in
    (relayOn s1 = true /\ relayPinLevel s1 = LOW) /\
    relay_view (trace start s) = [EDigitalWrite relayPin LOW; EDelay 500] /\
    relay_view (trace (loop_programming now) s1) = pulses (Z.to_nat k) /\
    relay_view (trace (start ;; loop_programming now) s) =
      [EDigitalWrite relayPin LOW; EDelay 500] ++ pulses (Z.to_nat k) /\
    relay_view (trace (loop (mkInput [prog_on (colors_string_at k)] ms reading)) s) =
      [EDigitalWrite relayPin LOW; EDelay 500] ++ pulses (Z.to_nat k) ++
      relay_view (trace (loop_switch now reading) s2).
Proof.
  intros s k ms reading Hk Hp Hgate now start s1 s2.
  pose proof (callback_prog_on_run k s Hk Hp) as Hstart. cbv zeta in Hstart.
  assert (Hs1 : s1 = set_programming true
                       (set_relayPinLevel LOW (set_relayOn true (set_progVal k s)))).
  { subst s1 start. unfold exec. rewrite Hstart. reflexivity. }
  assert (Ht1 : relay_view (trace start s) =
                [EDigitalWrite relayPin LOW; EDelay 500]).
  { subst start. unfold trace. rewrite Hstart. reflexivity. }
  assert (Hp1 : programming s1 = true) by (rewrite Hs1; reflexivity).
  assert (Hv1 : progVal s1 = k) by (rewrite Hs1; reflexivity).
  assert (Hgate1 : prog_gate_open now s1) by (rewrite Hs1; exact Hgate).
  pose proof (loop_programming_open now s1 Hp1 Hgate1) as Hrun.
  rewrite Hv1 in Hrun.
  assert (Ht2 : relay_view (trace (loop_programming now) s1) =
                pulses (Z.to_nat k)).
  { unfold trace. rewrite Hrun. cbn [snd].
    rewrite relay_view_app, relay_view_pulses. apply app_nil_r. }
  split; [rewrite Hs1; split; reflexivity | ].
  split; [exact Ht1 | ]. split; [exact Ht2 | ].
  split.
  - rewrite trace_bind, relay_view_app. fold s1. rewrite Ht1, Ht2. reflexivity.
  - pose proof (loop_trace (mkInput [prog_on (colors_string_at k)] ms reading) s)
      as Hloop.
    cbv zeta in Hloop. cbn [in_msgs in_millis in_switch] in Hloop. fold now in Hloop.
    replace (exec (client_loop [prog_on (colors_string_at k)]) s) with s1 in Hloop
      by (unfold s1, start, exec; rewrite client_loop_single; reflexivity).
    replace (trace (client_loop [prog_on (colors_string_at k)]) s)
      with (trace start s) in Hloop
      by (unfold start, trace; rewrite client_loop_single; reflexivity).
    replace (exec (loop_status now) s1) with s1 in Hloop
      by (unfold exec; rewrite (loop_status_while_programming now s1 Hp1);
          reflexivity).
    replace (trace (loop_status now) s1) with (@nil Event) in Hloop
      by (unfold trace; rewrite (loop_status_while_programming now s1 Hp1);
          reflexivity).
    fold s2 in Hloop. rewrite Hloop.
    rewrite !relay_view_app, Ht1, Ht2. reflexivity.
Qed.

Lemma programming_sequence_shape_witness :
  (1 <= Red <= 14) /\
  programming booted = false /\
  prog_gate_open (wrap32 1000) booted /\
  relay_view (trace (callback (prog_on (colors_string_at Red)) ;;
                     loop_programming (wrap32 1000)) booted) =
  [EDigitalWrite relayPin LOW; EDelay 500] ++ pulses 10.
Proof.
  assert (Hk : 1 <= Red <= 14) by (unfold Red; lia).
  assert (Hp : programming booted = false) by reflexivity.
  assert (Hg : prog_gate_open (wrap32 1000) booted) by (left; reflexivity).
  split; [exact Hk | ]. split; [exact Hp | ]. split; [exact Hg | ].
  pose proof (programming_sequence_shape booted Red 1000 HIGH Hk Hp Hg) as H.
  cbv zeta in H.
  destruct H as [_ [_ [_ [Hseq _]]]]. exact Hseq.
Defined.

(** While a programming request is pending the relay is on: the block
    leaves the pin on whatever the pending count is. *)
Lemma loop_programming_keeps_pin_on (now : Z) (s : State) :
  programming s = true -> relayPinLevel s = LOW ->
  relayPinLevel (exec (loop_programming now) s) = LOW.
Proof.
  intros Hp Hpin. unfold exec. rewrite loop_programming_run, Hp.
  destruct ((lastProgCheck s =? 0) || _); cbn [andb fst snd]; [ | exact Hpin].
  unfold programmed. destruct (Z.to_nat (progVal s)); fields; auto.
Qed.

(** C10.  Every programming cycle forces the light on and leaves it on,
    whatever the power state was before: the request sets [relayOn] and
    drives the pin on before the 500 ms settle delay, each pulse ends with
    the pin driven on, and when the pulse train is complete the pin is on
    (and [relayOn] still says so). *)
Theorem programming_leaves_light_on :
  forall (s : State) (k now : Z),
    1 <= k <= 14 ->
    programming s = false ->
    prog_gate_open now s ->
    let start := callback (prog_on (colors_string_at k)) in
    let s1 := exec start s in
    let s2 := exec (loop_programming now) s1 in
    (relayOn s1 = true /\ relayPinLevel s1 = LOW /\
     exists p q,
       trace start s =
       [EDigitalWrite relayPin LOW; EPublish p; EDelay 500; EPublish q]) /\
    (forall (s' : State) (delVal : Z),
       relayPinLevel (exec (toggleRelay delVal) s') = LOW /\
       last (relay_writes (trace (toggleRelay delVal) s')) HIGH = LOW) /\
    (relayPinLevel s2 = LOW /\ relayOn s2 = true /\ programming s2 = false) /\
    last (relay_writes (trace (start ;; loop_programming now) s)) HIGH = LOW.
Proof.
  intros s k now Hk Hp Hgate start s1 s2.
  pose proof (callback_prog_on_run k s Hk Hp) as Hstart. cbv zeta in Hstart.
  assert (Hs1 : s1 = set_programming true
                       (set_relayPinLevel LOW (set_relayOn true (set_progVal k s)))).
  { subst s1 start. unfold exec. rewrite Hstart. reflexivity. }
  assert (Hp1 : programming s1 = true) by (rewrite Hs1; reflexivity).
  assert (Hv1 : progVal s1 = k) by (rewrite Hs1; reflexivity).
  assert (Hgate1 : prog_gate_open now s1) by (rewrite Hs1; exact Hgate).
  pose proof (loop_programming_open now s1 Hp1 Hgate1) as Hrun.
  rewrite Hv1 in Hrun.
  assert (Hs2 : s2 = programmed now s1).
  { subst s2. unfold exec. rewrite Hrun. reflexivity. }
  destruct (Z.to_nat k) as [ | n] eqn:Hn; [lia | ].
  split.
  { rewrite Hs1. split; [reflexivity | ]. split; [reflexivity | ].
    subst start. unfold trace. rewrite Hstart. cbn [snd]. eauto. }
  split.
  { intros s' delVal. unfold exec, trace. rewrite toggleRelay_run.
    split; reflexivity. }
  split.
  { rewrite Hs2. unfold programmed. rewrite Hv1, Hn, Hs1. fields. auto. }
  rewrite trace_bind. fold s1.
  subst start. unfold trace at 1. rewrite Hstart. cbn [snd].
  unfold trace. rewrite Hrun. cbn [snd].
  rewrite !relay_writes_app.
  change (relay_writes [EPublish (status_of (programmed now s1))]) with (@nil level).
  rewrite app_nil_r.
  match goal with
  | |- last (relay_writes ?t ++ _) _ = _ =>
      change (relay_writes t) with [LOW]
  end.
  cbn [app]. rewrite relay_writes_pulses_S.
  change (last (LOW :: HIGH :: LOW :: relay_writes (pulses n)) HIGH)
    with (last (HIGH :: LOW :: relay_writes (pulses n)) HIGH).
  rewrite <- relay_writes_pulses_S. apply relay_writes_pulses_last.
Qed.

Lemma programming_leaves_light_on_witness :
  (1 <= Green <= 14) /\
  programming booted = false /\
  prog_gate_open 1000 booted /\
  relayPinLevel booted = HIGH /\
  relayPinLevel
    (exec (loop_programming 1000)
       (exec (callback (prog_on (colors_string_at Green))) booted)) = LOW.
Proof.
  assert (Hk : 1 <= Green <= 14) by (unfold Green; lia).
  assert (Hp : programming booted = false) by reflexivity.
  assert (Hg : prog_gate_open 1000 booted) by (left; reflexivity).
  split; [exact Hk | ]. split; [exact Hp | ]. split; [exact Hg | ].
  split; [reflexivity | ].
  pose proof (programming_leaves_light_on booted Green 1000 Hk Hp Hg) as H.
  cbv zeta in H.
  destruct H as [_ [_ [[Hpin _] _]]]. exact Hpin.
Defined.

(* ===================================================================== *)
(** ** Power commands *)

Lemma callback_power_cmd_run (v : string) (s : State) :
  callback (power_cmd v) s = callback_power (Some v) s.
Proof.
  unfold callback, power_cmd. cbn [doc_power doc_programming_0 doc_programming_1].
  unfold bind. destruct (callback_power (Some v) s) as [[[] s1] t1].
  cbn [callback_programming ret]. rewrite app_nil_r. reflexivity.
Qed.

(** C8 (as amended).  A power command received while not programming is
    always applied and reported, whether or not the relay already is in
    the requested state: power "on" leaves [relayOn] true, writes the pin
    on and publishes exactly one status with power "on"; power "off" is
    symmetric.  A repeated command is not suppressed. *)
Theorem power_command_always_reports :
  forall s : State,
    programming s = false ->
    let s_on := exec (callback (power_cmd "on")) s in
    let s_off := exec (callback (power_cmd "off")) s in
    (relayOn s_on = true /\ relayPinLevel s_on = LOW /\
     trace (callback (power_cmd "on")) s =
       [EDigitalWrite relayPin LOW; EPublish (status_of s_on)] /\
     st_power (status_of s_on) = "on") /\
    (relayOn s_off = false /\ relayPinLevel s_off = HIGH /\
     trace (callback (power_cmd "off")) s =
       [EDigitalWrite relayPin HIGH; EPublish (status_of s_off)] /\
     st_power (status_of s_off) = "off").
Proof.
  intros s Hp s_on s_off.
  assert (Hon : callback (power_cmd "on") s =
                (tt, set_relayPinLevel LOW (set_relayOn true s),
                 [EDigitalWrite relayPin LOW;
                  EPublish (status_of (set_relayPinLevel LOW (set_relayOn true s)))])).
  { rewrite callback_power_cmd_run, callback_power_run.
    replace (strncmp "on" "on" 2 =? 0) with true by reflexivity.
    rewrite setRelay_run. fields. rewrite Hp. reflexivity. }
  assert (Hoff : callback (power_cmd "off") s =
                 (tt, set_relayPinLevel HIGH (set_relayOn false s),
                  [EDigitalWrite relayPin HIGH;
                   EPublish (status_of (set_relayPinLevel HIGH (set_relayOn false s)))])).
  { rewrite callback_power_cmd_run, callback_power_run.
    replace (strncmp "off" "on" 2 =? 0) with false by reflexivity.
    replace (strncmp "off" "off" 3 =? 0) with true by reflexivity.
    rewrite setRelay_run. fields. rewrite Hp. reflexivity. }
  subst s_on s_off. unfold exec, trace. rewrite Hon, Hoff. cbn [fst snd].
  repeat split.
Qed.

Lemma power_command_always_reports_witness :
  programming booted = false /\
  relayOn booted = false /\
  map st_power (publishes (trace (callback (power_cmd "on")) booted)) = ["on"].
Proof.
  split; [reflexivity | ]. split; [reflexivity | ].
  pose proof (power_command_always_reports booted eq_refl) as H.
  cbv zeta in H. destruct H as [[_ [_ [Htrace Hpower]]] _].
  rewrite Htrace. cbn [publishes flat_map app map]. rewrite Hpower. reflexivity.
Defined.

(** C8 as stated fails on its first half: power "on" received when the
    relay is already on (and no programming is under way) publishes a
    status all the same. *)
Lemma power_on_when_already_on_counterexample :
  let s := exec (callback (power_cmd "on")) booted in
  relayOn s = true /\ programming s = false /\
  publishes (trace (callback (power_cmd "on")) s) =
    [mkStatus "on" 80 "off" "Unknown"] /\
  publishes (trace (callback (power_cmd "on")) s) <> [].
Proof.
  cbv zeta. repeat split; try reflexivity.
  vm_compute. discriminate.
Qed.

(* ===================================================================== *)
(** ** Status reports and the programming flag *)

Lemma st_programming_status_of (s : State) :
  st_programming (status_of s) = if programming s then "on" else "off".
Proof. reflexivity. Qed.

Lemma reports_programming_status_of (s : State) :
  reports_programming (status_of s) = programming s.
Proof.
  unfold reports_programming. rewrite st_programming_status_of.
  destruct (programming s); reflexivity.
Qed.

Lemma setRelay_facts (s : State) :
  programming (exec setRelay s) = programming s /\
  Forall (fun p => st_programming p = "off") (publishes (trace setRelay s)).
Proof.
  unfold exec, trace. rewrite setRelay_run.
  destruct (programming s) eqn:Hp; cbn [fst snd].
  - split; [exact Hp | constructor].
  - split; [fields; exact Hp | ].
    cbn [publishes flat_map app]. constructor; [ | constructor].
    rewrite st_programming_status_of. fields. rewrite Hp. reflexivity.
Qed.

Lemma callback_power_facts (power_j : option string) (s : State) :
  programming (exec (callback_power power_j) s) = programming s /\
  Forall (fun p => st_programming p = "off")
         (publishes (trace (callback_power power_j) s)).
Proof.
  unfold exec, trace. rewrite callback_power_run.
  destruct power_j as [v | ]; [ | split; [reflexivity | constructor]].
  destruct (strncmp v "on" 2 =? 0).
  - apply (setRelay_facts (set_relayOn true s)).
  - destruct (strncmp v "off" 3 =? 0).
    + apply (setRelay_facts (set_relayOn false s)).
    + split; [reflexivity | constructor].
Qed.

Lemma filter_all_off (l : list Status) :
  Forall (fun p => st_programming p = "off") l ->
  filter reports_programming l = [].
Proof.
  induction 1 as [ | p l Hp _ IH]; [reflexivity | ].
  cbn [filter]. unfold reports_programming at 1. rewrite Hp, IH. reflexivity.
Qed.

Lemma callback_programming_facts (prog_j progColor_j : option string) (s : State) :
  let s' := exec (callback_programming prog_j progColor_j) s in
  filter reports_programming
         (publishes (trace (callback_programming prog_j progColor_j) s)) =
  if negb (programming s) && programming s' then [status_of s'] else [].
Proof.
  cbv zeta. unfold exec, trace. rewrite callback_programming_run.
  destruct prog_j as [v | ], progColor_j as [name | ];
    try (cbn [fst snd publishes flat_map filter];
         destruct (programming s); reflexivity).
  destruct (strncmp v "on" 2 =? 0).
  - cbv zeta. destruct (findColor name >? 0); cbn [fst snd].
    + unfold exec, trace. rewrite setProgramming_run. fields.
      destruct (programming s) eqn:Hp; cbn [Bool.eqb fst snd]; [reflexivity | ].
      cbn [publishes flat_map app filter].
      rewrite !reports_programming_status_of. fields. rewrite Hp. reflexivity.
    + fields. destruct (programming s); reflexivity.
  - destruct (strncmp v "off" 3 =? 0); cbn [fst snd].
    + unfold exec, trace. rewrite setProgramming_run.
      destruct (programming s) eqn:Hp; cbn [Bool.eqb fst snd].
      * cbn [publishes flat_map app filter].
        rewrite reports_programming_status_of. reflexivity.
      * rewrite Hp. reflexivity.
    + destruct (programming s); reflexivity.
Qed.

(** C7 (as amended).  A status message carries the programming flag as it
    is when [publishStatus] runs.  The periodic report, the reports of a
    relay change ([setRelay], the switch poll) and the report of a
    completed programming cycle all go out with [programming == false].
    The one report that goes out with [programming == true] is the one
    [setProgramming(true)] sends when a message turns programming on: a
    message that raises [programming] publishes exactly one such report,
    any other message none. *)
Theorem status_reports_and_programming :
  forall (s : State) (now : Z) (reading : level) (m : option JsonDoc),
    let off := fun p : Status => st_programming p = "off" in
    (publishes (trace publishStatus s) = [status_of s] /\
     (st_programming (status_of s) = "on" <-> programming s = true)) /\
    Forall off (publishes (trace (loop_status now) s)) /\
    Forall off (publishes (trace (loop_programming now) s)) /\
    Forall off (publishes (trace (loop_switch now reading) s)) /\
    Forall off (publishes (trace setRelay s)) /\
    filter reports_programming (publishes (trace (callback m) s)) =
      (if negb (programming s) && programming (exec (callback m) s)
       then [status_of (exec (callback m) s)] else []).
Proof.
  intros s now reading m off. subst off.
  split.
  { split; [unfold trace; rewrite publishStatus_run; reflexivity | ].
    rewrite st_programming_status_of.
    destruct (programming s); split; intros H; try reflexivity; discriminate. }
  split.
  { unfold trace. rewrite loop_status_run.
    destruct (programming s) eqn:Hp; cbn [negb andb snd]; [constructor | ].
    destruct ((lastMsg s =? 0) || _); cbn [snd]; [ | constructor].
    cbn [publishes flat_map app]. constructor; [ | constructor].
    rewrite st_programming_status_of. fields. rewrite Hp. reflexivity. }
  split.
  { unfold trace. rewrite loop_programming_run.
    destruct (programming s && _); cbn [snd]; [ | constructor].
    rewrite publishes_app, publishes_pulses. cbn [publishes flat_map app].
    constructor; [ | constructor]. reflexivity. }
  split.
  { unfold trace. rewrite loop_switch_run.
    destruct (programming s) eqn:Hp; cbn [negb andb snd]; [constructor | ].
    destruct ((lastSwitchCheck s =? 0) || _); cbn [snd]; [ | constructor].
    destruct (level_eqb reading (switchState s)); cbn [snd]; [constructor | ].
    cbn [publishes flat_map app]. constructor; [ | constructor].
    rewrite st_programming_status_of. fields. rewrite Hp. reflexivity. }
  split; [apply setRelay_facts | ].
  destruct m as [doc | ].
  - unfold callback. rewrite trace_bind, exec_bind, publishes_app, filter_app.
    destruct (callback_power_facts (doc_power doc) s) as [Hprog Hoff].
    rewrite (filter_all_off _ Hoff). cbn [app].
    rewrite callback_programming_facts. rewrite Hprog. reflexivity.
  - cbn [callback]. unfold trace, exec, ret. cbn [fst snd publishes flat_map filter].
    destruct (programming s); reflexivity.
Qed.

(** C7 as stated fails: the first programming request after boot makes
    [setProgramming(true)] publish a status with programming "on", from a
    state in which [programming] is true. *)
Lemma publish_while_programming_counterexample :
  let m := prog_on "Blue" in
  programming (exec (callback m) booted) = true /\
  publishes (trace (callback m) booted) =
    [mkStatus "on" 80 "off" "Unknown"; mkStatus "on" 80 "on" "Unknown"] /\
  last (publishes (trace (callback m) booted)) (status_of booted) =
    status_of (exec (callback m) booted) /\
  st_programming (status_of (exec (callback m) booted)) = "on".
Proof.
  cbv zeta. repeat split; reflexivity.
Qed.

Lemma status_reports_and_programming_witness :
  filter reports_programming (publishes (trace (callback (prog_on "Red")) booted)) =
  [mkStatus "on" 80 "on" "Unknown"].
Proof.
  destruct (status_reports_and_programming booted 0 HIGH (prog_on "Red"))
    as [_ [_ [_ [_ [_ H]]]]].
  rewrite H. reflexivity.
Defined.

(* ===================================================================== *)
(** ** The relay while programming is under way *)

Lemma setRelay_while_programming (s : State) :
  programming s = true -> setRelay s = (tt, s, []).
Proof. intros Hp. rewrite setRelay_run, Hp. reflexivity. Qed.

Lemma togglePower_while_programming (v : level) (s : State) :
  programming s = true -> togglePower v s = (tt, set_switchState v s, []).
Proof. intros Hp. rewrite togglePower_run, Hp. reflexivity. Qed.

Lemma loop_switch_while_programming (now : Z) (reading : level) (s : State) :
  programming s = true -> loop_switch now reading s = (tt, s, []).
Proof. intros Hp. rewrite loop_switch_run, Hp. reflexivity. Qed.

(** No message makes [callback] write the relay pin while programming is
    under way. *)
Lemma callback_while_programming_no_relay_write (m : option JsonDoc) (s : State) :
  programming s = true ->
  relay_writes (trace (callback m) s) = [] /\
  relayPinLevel (exec (callback m) s) = relayPinLevel s.
Proof.
  intros Hp. destruct m as [[pw p0 p1] | ]; [ | split; reflexivity].
  unfold callback. cbn [doc_power doc_programming_0 doc_programming_1].
  rewrite trace_bind, exec_bind, relay_writes_app.
  assert (Hpow : callback_power pw s = (tt, s, []) \/
                 exists b, callback_power pw s = (tt, set_relayOn b s, [])).
  { rewrite callback_power_run. destruct pw as [v | ]; [ | left; reflexivity].
    destruct (strncmp v "on" 2 =? 0).
    - right. exists true. apply setRelay_while_programming. exact Hp.
    - destruct (strncmp v "off" 3 =? 0); [ | left; reflexivity].
      right. exists false. apply setRelay_while_programming. exact Hp. }
  assert (Hprog : forall s0, programming s0 = true ->
            relay_writes (trace (callback_programming p0 p1) s0) = [] /\
            relayPinLevel (exec (callback_programming p0 p1) s0) = relayPinLevel s0).
  { intros s0 Hp0. unfold trace, exec. rewrite callback_programming_run.
    destruct p0 as [v | ], p1 as [name | ]; try (split; reflexivity).
    destruct (strncmp v "on" 2 =? 0).
    - cbv zeta. destruct (findColor name >? 0); [ | split; reflexivity].
      unfold trace, exec. rewrite setProgramming_run. fields. rewrite Hp0.
      split; reflexivity.
    - destruct (strncmp v "off" 3 =? 0); [ | split; reflexivity].
      unfold trace, exec. rewrite setProgramming_run, Hp0. split; reflexivity. }
  destruct Hpow as [Hpow | [b Hpow]]; unfold trace at 1, exec, result;
    rewrite Hpow; cbn [fst snd relay_writes flat_map app].
  - apply Hprog. exact Hp.
  - destruct (Hprog (set_relayOn b s) Hp) as [Ht Hpin]. split; [exact Ht | ].
    unfold exec in Hpin. rewrite Hpin. reflexivity.
Qed.

(** C1, the code at the failing input.  With a programming request pending
    ([programming == true], relay on), a power "off" message leaves the
    pin alone and writes nothing, yet flips [relayOn] to false: the
    assignment at line 148 comes before the guard inside [setRelay]. *)
Theorem power_off_while_programming_flips_relayOn :
  let i := mkInput [power_cmd "off"] 2294967396 HIGH in
  (programming pending = true /\ relayOn pending = true /\
   relayPinLevel pending = LOW) /\
  (programming (exec (loop i) pending) = true /\
   relayOn (exec (loop i) pending) = false /\
   relayPinLevel (exec (loop i) pending) = LOW /\
   trace (loop i) pending = []).
Proof.
  cbv zeta. repeat split; vm_compute; reflexivity.
Qed.

(* ===================================================================== *)
(** ** The switch while programming is under way *)

Lemma prog_gate_closed_test (now : Z) (s : State) :
  ~ prog_gate_open now s ->
  (lastProgCheck s =? 0) ||
  (sub32 now (lastProgCheck s) >? timeBetweenProgCheck) = false.
Proof.
  intros Hclosed. unfold prog_gate_open in Hclosed.
  apply orb_false_iff. split.
  - apply Z.eqb_neq. intros H0. apply Hclosed. left. exact H0.
  - destruct (Z.gtb_spec (sub32 now (lastProgCheck s)) timeBetweenProgCheck)
      as [Hgt | Hle]; [ | reflexivity].
    exfalso. apply Hclosed. right. lia.
Qed.

(** C6, the code at the failing input.  [togglePower] stores the reading
    before its [if(!programming)], so as to record a change of the switch
    without acting on it, but the guard of line 355 keeps the poll from
    running while [programming] is true, and line 350 lowers the flag
    before the poll of the same pass.  So a change of the switch during
    programming is not recorded and is acted on afterwards.

    First run: after boot a pass polls the switch (HIGH, as [setup] read
    it); in the next pass a request for Blue arrives and the switch goes
    LOW while the pulses are sent; the poll that ends the pass finds the
    reading different from the stored one and switches the relay off,
    right after the eight pulses.

    Second run: with the request for Red pending and the stored
    [switchState] HIGH, the switch goes LOW; a pass through [loop] leaves
    [switchState] as it is.  When the block runs (after [millis()] has
    wrapped around to 1300) the ten pulses are sent and the poll of the
    same pass switches the relay off. *)
Theorem switch_change_replayed_after_programming :
  let idle := mkInput [] 1000 HIGH in
  let request := mkInput [prog_on "Blue"] 1300 LOW in
  let s0 := exec (loop idle) booted in
  let quiet := mkInput [] 2294967396 LOW in
  let resume := mkInput [] 1300 LOW in
  ((switchState s0 = HIGH /\ relayOn s0 = false /\ programming s0 = false) /\
   relay_view (trace (loop request) s0) =
     [EDigitalWrite relayPin LOW; EDelay 500] ++ pulses 8 ++
     [EDigitalWrite relayPin HIGH] /\
   (currColor (exec (loop request) s0) = Blue /\
    programming (exec (loop request) s0) = false /\
    relayOn (exec (loop request) s0) = false /\
    relayPinLevel (exec (loop request) s0) = HIGH /\
    switchState (exec (loop request) s0) = LOW)) /\
  ((programming pending = true /\ switchState pending = HIGH) /\
   (switchState (exec (loop quiet) pending) = HIGH /\
    exec (loop quiet) pending = pending) /\
   relay_view (trace (loop resume) (exec (loop quiet) pending)) =
     pulses 10 ++ [EDigitalWrite relayPin HIGH] /\
   (relayOn (exec (loop resume) (exec (loop quiet) pending)) = false /\
    relayPinLevel (exec (loop resume) (exec (loop quiet) pending)) = HIGH /\
    switchState (exec (loop resume) (exec (loop quiet) pending)) = LOW)).
Proof.
  cbv zeta. repeat split; vm_compute; reflexivity.
Qed.

(* ===================================================================== *)
(** ** Names that are not in the table *)

(** What [findColor] returns is -1 or the index of a table entry that
    agrees with the input on its first 15 bytes. *)
Lemma findColor_sound (str : string) :
  findColor str = -1 \/
  (0 <= findColor str <= 14 /\
   strncmp str (colors_string_at (findColor str)) maxColorNameSize = 0).
Proof.
  unfold findColor.
  assert (Hgen : forall todo i,
            (i + todo = 15)%nat ->
            findColor_for str i todo = -1 \/
            (0 <= findColor_for str i todo <= 14 /\
             strncmp str (colors_string_at (findColor_for str i todo))
                     maxColorNameSize = 0)).
  { induction todo as [ | todo IH]; intros i Hi; [left; reflexivity | ].
    cbn [findColor_for].
    destruct (Z.eqb_spec (strncmp str (nth i colors_string EmptyString) maxColorNameSize) 0)
      as [Heq | Hne].
    - right. split; [lia | ].
      unfold colors_string_at. rewrite Nat2Z.id. exact Heq.
    - apply IH. lia. }
  apply (Hgen 15%nat 0%nat). reflexivity.
Qed.

(** A string shorter than the comparison bound is matched in full: here
    the lookup is exact and case-sensitive. *)
Lemma findColor_case_sensitive :
  findColor "blue" = -1 /\ findColor "BLUE" = -1 /\ findColor "Blu" = -1 /\
  findColor "Blue " = -1 /\ findColor EmptyString = -1 /\ findColor "Invalid_Color" = 0.
Proof. repeat split; reflexivity. Qed.

(** C5, the code at the failing input.  "Peruvian_Paradi" is not a table
    name, yet [findColor] resolves it to code 1, because [strncmp] stops
    after [maxColorNameSize = 15] bytes and "Peruvian_Paradise" has 17;
    any string that starts with the 15 bytes of "Northern_Lights" resolves
    to code 3 in the same way.  The request then starts programming, and
    the pass through [loop] sends one pulse and records colour 1. *)
Theorem findColor_accepts_truncated_name :
  let name := "Peruvian_Paradi" in
  let i := mkInput [prog_on name] 1000 HIGH in
  ~ In name colors_string /\
  findColor name = Peruvian_Paradise /\
  findColor "Northern_Lights_Out" = Northern_Lights /\
  (programming (exec (callback (prog_on name)) booted) = true /\
   progVal (exec (callback (prog_on name)) booted) = 1) /\
  relay_view (trace (loop i) booted) =
    [EDigitalWrite relayPin LOW; EDelay 500] ++ pulses 1 /\
  currColor (exec (loop i) booted) = 1.
Proof.
  cbv zeta. split.
  - cbn [In colors_string]. intros H.
    repeat (destruct H as [H | H]; [discriminate H | ]). exact H.
  - repeat split; vm_compute; reflexivity.
Qed.

(** The lookup result is stored in [progVal] before it is checked (line
    165).  With the request for Red pending, a request for a name that is
    not in the table is refused, but the pending pulse count is gone: when
    the block runs it sends no pulse and records colour -1. *)
Lemma unknown_name_while_pending_overwrites_progVal :
  let bad := mkInput [prog_on "Purple"] 2294967396 HIGH in
  let resume := mkInput [] 1300 HIGH in
  (programming pending = true /\ progVal pending = Red) /\
  (programming (exec (loop bad) pending) = true /\
   progVal (exec (loop bad) pending) = -1) /\
  relay_view (trace (loop resume) (exec (loop bad) pending)) = [] /\
  currColor (exec (loop resume) (exec (loop bad) pending)) = -1.
Proof.
  cbv zeta. repeat split; vm_compute; reflexivity.
Qed.

(** A name that differs from every table name within the first 15 bytes is
    refused: the lookup result is not positive, and the request, received
    while not programming, writes nothing, publishes nothing and changes
    nothing but [progVal], which takes the lookup result. *)
Lemma callback_refuses_unlisted_name (name : string) (s : State) :
  (forall k, 1 <= k <= 14 ->
     c_bytes maxColorNameSize name <>
     c_bytes maxColorNameSize (colors_string_at k)) ->
  findColor name <= 0 /\
  callback (prog_on name) s = (tt, set_progVal (findColor name) s, []).
Proof.
  intros Hdiff.
  assert (Hle : findColor name <= 0).
  { destruct (findColor_sound name) as [Hm | [Hr Hz]]; [lia | ].
    destruct (Z_le_gt_dec (findColor name) 0) as [Hle | Hgt]; [exact Hle | ].
    exfalso. apply (Hdiff (findColor name)); [lia | ].
    apply strncmp_zero_iff. exact Hz. }
  split; [exact Hle | ].
  unfold callback, prog_on. cbn [doc_power doc_programming_0 doc_programming_1].
  apply bind_run with (a := tt) (s1 := s) (t1 := []);
    [apply callback_power_run | ].
  rewrite callback_programming_run.
  replace (strncmp "on" "on" 2 =? 0) with true by reflexivity.
  cbv zeta.
  replace (findColor name >? 0) with false
    by (symmetry; rewrite Z.gtb_ltb; apply Z.ltb_ge; lia).
  reflexivity.
Qed.

(* ===================================================================== *)
(** ** An invariant of the run: while programming the relay is on *)

Lemma callback_keeps_invariant (m : option JsonDoc) (s : State) :
  relay_on_while_programming s ->
  relay_on_while_programming (exec (callback m) s).
Proof.
  intros Hinv Hafter.
  destruct (programming s) eqn:Hp.
  - destruct (callback_while_programming_no_relay_write m s Hp) as [_ Hpin].
    rewrite Hpin. apply Hinv. exact Hp.
  - destruct m as [[pw p0 p1] | ]; [ | cbn in Hafter; congruence].
    unfold callback in *.
    cbn [doc_power doc_programming_0 doc_programming_1] in *.
    rewrite exec_bind in *.
    destruct (callback_power_facts pw s) as [Hp' _]. rewrite Hp in Hp'.
    set (s0 := exec (callback_power pw) s) in *.
    set (r := result (callback_power pw) s) in *. clearbody r s0.
    unfold exec in *. rewrite callback_programming_run in *.
    destruct p0 as [v | ], p1 as [name | ];
      try (cbn [fst snd] in *; congruence).
    destruct (strncmp v "on" 2 =? 0).
    + cbv zeta in *. destruct (findColor name >? 0).
      * unfold exec in *. rewrite setProgramming_run in *. fields.
        revert Hafter. fields. rewrite Hp'. cbn [Bool.eqb fst snd]. reflexivity.
      * cbn [fst snd] in *. revert Hafter. fields. congruence.
    + destruct (strncmp v "off" 3 =? 0); [ | cbn [fst snd] in *; congruence].
      unfold exec in *. rewrite setProgramming_run, Hp' in *.
      cbn [Bool.eqb fst snd] in *. congruence.
Qed.

Lemma client_loop_keeps_invariant (msgs : list (option JsonDoc)) :
  forall s : State,
    relay_on_while_programming s ->
    relay_on_while_programming (exec (client_loop msgs) s).
Proof.
  induction msgs as [ | m rest IH]; intros s Hinv; [exact Hinv | ].
  cbn [client_loop]. rewrite exec_bind.
  apply IH, callback_keeps_invariant. exact Hinv.
Qed.

Lemma loop_keeps_invariant (i : Input) (s : State) :
  relay_on_while_programming s ->
  relay_on_while_programming (exec (loop i) s).
Proof.
  intros Hinv. rewrite loop_exec.
  set (now := wrap32 (in_millis i)).
  pose proof (client_loop_keeps_invariant (in_msgs i) s Hinv) as H1.
  set (s1 := exec (client_loop (in_msgs i)) s) in *. clearbody s1.
  assert (H2 : relay_on_while_programming (exec (loop_status now) s1)).
  { unfold exec. rewrite loop_status_run.
    destruct (negb (programming s1) && _) eqn:Hc; cbn [fst snd]; [ | exact H1].
    apply andb_prop in Hc. destruct Hc as [Hc _].
    intros Hp. revert Hp. fields. intros Hp. rewrite Hp in Hc. discriminate. }
  set (s2 := exec (loop_status now) s1) in *. clearbody s2.
  assert (H3 : relay_on_while_programming (exec (loop_programming now) s2)).
  { unfold exec. rewrite loop_programming_run.
    destruct (programming s2 && _); cbn [fst snd]; [ | exact H2].
    intros Hp. unfold programmed in Hp. revert Hp. fields. discriminate. }
  set (s3 := exec (loop_programming now) s2) in *. clearbody s3.
  unfold exec. rewrite loop_switch_run.
  destruct (programming s3) eqn:Hp3; cbn [negb andb fst snd]; [exact H3 | ].
  destruct ((lastSwitchCheck s3 =? 0) || _); cbn [fst snd]; [ | exact H3].
  destruct (level_eqb (in_switch i) (switchState s3)); cbn [fst snd];
    intros Hp; revert Hp; fields; congruence.
Qed.

(** In every reachable state with a programming request pending the relay
    pin is on, so every run of the programming block, whenever the timer
    lets it start and whatever happened to [relayOn] and [progVal] in the
    meantime, ends with the pin on. *)
Lemma reachable_relay_on_while_programming (s : State) :
  reachable s -> relay_on_while_programming s.
Proof.
  induction 1 as [st rssi reading | s st rssi _ IH | s i _ IH].
  - intros Hp. discriminate Hp.
  - exact IH.
  - apply loop_keeps_invariant. exact IH.
Qed.

Lemma reachable_programming_block_leaves_pin_on (s : State) (i : Input) :
  reachable s ->
  let now := wrap32 (in_millis i) in
  let s2 := exec (loop_status now) (exec (client_loop (in_msgs i)) s) in
  programming s2 = true ->
  relayPinLevel (exec (loop_programming now) s2) = LOW.
Proof.
  intros Hreach now s2 Hp2.
  apply loop_programming_keeps_pin_on; [exact Hp2 | ].
  assert (H1 : relay_on_while_programming (exec (client_loop (in_msgs i)) s))
    by (apply client_loop_keeps_invariant, reachable_relay_on_while_programming;
        exact Hreach).
  subst s2. revert Hp2. unfold exec at 1 3. rewrite loop_status_run.
  destruct (negb (programming (exec (client_loop (in_msgs i)) s)) && _) eqn:Hc;
    cbn [fst snd]; [ | exact H1].
  apply andb_prop in Hc. destruct Hc as [Hc _].
  fields. intros Hp. rewrite Hp in Hc. discriminate.
Qed.

(* ===================================================================== *)
(** ** The lookup of colour names, in full *)

(** When the loop finds nothing, no entry it looked at compares equal. *)
Lemma findColor_for_none (str : string) (todo i j : nat) :
  findColor_for str i todo = -1 ->
  (i <= j < i + todo)%nat ->
  strncmp str (nth j colors_string EmptyString) maxColorNameSize <> 0.
Proof.
  revert i. induction todo as [ | todo IH]; intros i Hnone Hj; [lia | ].
  cbn [findColor_for] in Hnone.
  destruct (Z.eqb_spec
              (strncmp str (nth i colors_string EmptyString) maxColorNameSize) 0)
    as [Heq | Hne]; [lia | ].
  destruct (Nat.eq_dec j i) as [-> | Hji]; [exact Hne | ].
  apply (IH (S i)); [exact Hnone | lia].
Qed.

(** No two table entries agree on their first 15 bytes. *)
Lemma colors_string_prefixes_distinct (j k : Z) :
  0 <= j <= 14 -> 0 <= k <= 14 ->
  c_bytes maxColorNameSize (colors_string_at j) =
  c_bytes maxColorNameSize (colors_string_at k) ->
  j = k.
Proof.
  intros Hj Hk.
  assert (Hjc : j = 0 \/ j = 1 \/ j = 2 \/ j = 3 \/ j = 4 \/ j = 5 \/ j = 6 \/
                j = 7 \/ j = 8 \/ j = 9 \/ j = 10 \/ j = 11 \/ j = 12 \/
                j = 13 \/ j = 14) by lia.
  assert (Hkc : k = 0 \/ k = 1 \/ k = 2 \/ k = 3 \/ k = 4 \/ k = 5 \/ k = 6 \/
                k = 7 \/ k = 8 \/ k = 9 \/ k = 10 \/ k = 11 \/ k = 12 \/
                k = 13 \/ k = 14) by lia.
  clear Hj Hk.
  repeat (destruct Hjc as [-> | Hjc]);
    try subst j;
    repeat (destruct Hkc as [-> | Hkc]);
    try subst k;
    intros H; try reflexivity; vm_compute in H; discriminate H.
Qed.

(** X1.  [findColor] is a lookup by the first 15 bytes: its result is -1
    or an index 0..14, it is [k] exactly when the input and table entry
    [k] show the same bytes within the bound of 15 (the terminator
    included when it falls within), and it is -1 exactly when no entry
    does. *)
Theorem findColor_by_first_15_bytes :
  forall str : string,
    -1 <= findColor str <= 14 /\
    (forall k : Z,
       0 <= k <= 14 ->
       (findColor str = k <->
        c_bytes maxColorNameSize str =
        c_bytes maxColorNameSize (colors_string_at k))) /\
    (findColor str = -1 <->
     forall k : Z,
       0 <= k <= 14 ->
       c_bytes maxColorNameSize str <>
       c_bytes maxColorNameSize (colors_string_at k)).
Proof.
  intros str.
  assert (Hrange : -1 <= findColor str <= 14).
  { destruct (findColor_sound str) as [Hm | [Hr _]]; lia. }
  assert (Hfound : forall k, 0 <= k <= 14 -> findColor str = k ->
            c_bytes maxColorNameSize str =
            c_bytes maxColorNameSize (colors_string_at k)).
  { intros k Hk Hf. destruct (findColor_sound str) as [Hm | [_ Hz]]; [lia | ].
    rewrite Hf in Hz. apply strncmp_zero_iff. exact Hz. }
  assert (Hnone : findColor str = -1 -> forall k, 0 <= k <= 14 ->
            c_bytes maxColorNameSize str <>
            c_bytes maxColorNameSize (colors_string_at k)).
  { intros Hf k Hk Heq. apply strncmp_zero_iff in Heq.
    apply (findColor_for_none str 15 0 (Z.to_nat k) Hf); [lia | exact Heq]. }
  split; [exact Hrange | ]. split.
  - intros k Hk. split; [apply Hfound; exact Hk | ].
    intros Heq.
    destruct (Z.eq_dec (findColor str) (-1)) as [Hm | Hnm].
    + exfalso. apply (Hnone Hm k Hk). exact Heq.
    + apply colors_string_prefixes_distinct; [lia | exact Hk | ].
      rewrite <- Heq. symmetry. apply Hfound; [lia | reflexivity].
  - split; [exact Hnone | ].
    intros Hall.
    destruct (Z.eq_dec (findColor str) (-1)) as [Hm | Hnm]; [exact Hm | ].
    exfalso. apply (Hall (findColor str)); [lia | ].
    apply Hfound; [lia | reflexivity].
Qed.

Lemma findColor_by_first_15_bytes_witness :
  c_bytes maxColorNameSize "Northern_Lights_Out" =
  c_bytes maxColorNameSize (colors_string_at Northern_Lights) /\
  findColor "Northern_Lights_Out" = Northern_Lights.
Proof.
  split; [reflexivity | ].
  destruct (findColor_by_first_15_bytes "Northern_Lights_Out") as [_ [Hiff _]].
  apply (Hiff Northern_Lights); [unfold Northern_Lights; lia | reflexivity].
Defined.

Lemma char_at_inj (c1 c2 : ascii) (r1 r2 : string) :
  char_at (String c1 r1) = char_at (String c2 r2) -> c1 = c2.
Proof.
  cbn [char_at]. intros H. apply N2Z.inj in H.
  rewrite <- (ascii_N_embedding c1), <- (ascii_N_embedding c2), H.
  reflexivity.
Qed.

(** Within the bound, a NUL-free string that ends before the bound is seen
    in full. *)
Lemma c_bytes_exact (n : nat) :
  forall s t : string,
    nul_free s = true -> nul_free t = true ->
    (String.length s < n)%nat ->
    c_bytes n s = c_bytes n t -> s = t.
Proof.
  induction n as [ | n IH]; intros s t Hs Ht Hlen Heq; [lia | ].
  destruct s as [ | c1 r1], t as [ | c2 r2].
  - reflexivity.
  - cbn [nul_free] in Ht. apply andb_prop in Ht. destruct Ht as [Hc _].
    cbn [c_bytes] in Heq. destruct (char_at (String c2 r2) =? 0);
      [discriminate Hc | discriminate Heq].
  - cbn [nul_free] in Hs. apply andb_prop in Hs. destruct Hs as [Hc _].
    cbn [c_bytes] in Heq. destruct (char_at (String c1 r1) =? 0);
      [discriminate Hc | discriminate Heq].
  - cbn [nul_free] in Hs, Ht.
    apply andb_prop in Hs. destruct Hs as [Hc1 Hs].
    apply andb_prop in Ht. destruct Ht as [Hc2 Ht].
    cbn [c_bytes] in Heq.
    destruct (char_at (String c1 r1) =? 0); [discriminate Hc1 | ].
    destruct (char_at (String c2 r2) =? 0); [discriminate Hc2 | ].
    injection Heq as Hhead Htail.
    rewrite (char_at_inj c1 c2 r1 r2 Hhead). f_equal.
    apply IH; auto. cbn [String.length] in Hlen. lia.
Qed.

(** X2.  For an input of fewer than 15 characters (and no embedded NUL)
    the lookup is exact and case-sensitive: [findColor] returns index [k]
    exactly when the input is the table entry [k], character for
    character. *)
Theorem findColor_exact_below_15_characters :
  forall (str : string) (k : Z),
    nul_free str = true ->
    (String.length str < 15)%nat ->
    0 <= k <= 14 ->
    (findColor str = k <-> str = colors_string_at k).
Proof.
  intros str k Hnul Hlen Hk.
  assert (Htable : nul_free (colors_string_at k) = true).
  { assert (Hc : k = 0 \/ k = 1 \/ k = 2 \/ k = 3 \/ k = 4 \/ k = 5 \/ k = 6 \/
                 k = 7 \/ k = 8 \/ k = 9 \/ k = 10 \/ k = 11 \/ k = 12 \/
                 k = 13 \/ k = 14) by lia.
    repeat (destruct Hc as [-> | Hc]; [reflexivity | ]). subst k. reflexivity. }
  split.
  - intros Hf. destruct (findColor_sound str) as [Hm | [_ Hz]]; [lia | ].
    rewrite Hf in Hz. apply strncmp_zero_iff in Hz.
    apply (c_bytes_exact maxColorNameSize); auto.
  - intros ->. destruct (findColor_sound (colors_string_at k)) as [Hm | [Hr Hz]].
    + exfalso.
      apply (findColor_for_none (colors_string_at k) 15 0 (Z.to_nat k) Hm);
        [lia | ].
      apply strncmp_zero_iff. reflexivity.
    + apply strncmp_zero_iff in Hz.
      symmetry. apply colors_string_prefixes_distinct; [exact Hk | lia | exact Hz].
Qed.

Lemma findColor_exact_below_15_characters_witness :
  nul_free "green" = true /\
  (String.length "green" < 15)%nat /\
  findColor "green" <> Green.
Proof.
  split; [reflexivity | ]. split; [cbn; lia | ].
  intros Hf.
  assert (Hk : 0 <= Green <= 14) by (unfold Green; lia).
  assert (Hlen : (String.length "green" < 15)%nat) by (cbn; lia).
  destruct (findColor_exact_below_15_characters "green" Green eq_refl Hlen Hk)
    as [Hto _].
  discriminate (Hto Hf).
Defined.

(* ===================================================================== *)
(** ** Invariants of the run *)

(** A property of the state that [setup] establishes and that every step
    of a pass keeps holds in every reachable state. *)
Lemma reachable_invariant (P : State -> Prop) :
  (forall st rssi r, P (exec (setup r) (power_up st rssi))) ->
  (forall s st rssi, P s -> P (set_radio st rssi s)) ->
  (forall s m, P s -> P (exec (callback m) s)) ->
  (forall s now, P s -> P (exec (loop_status now) s)) ->
  (forall s now, P s -> P (exec (loop_programming now) s)) ->
  (forall s now r, P s -> P (exec (loop_switch now r) s)) ->
  forall s, reachable s -> P s.
Proof.
  intros Hsetup Hradio Hcb Hstatus Hprog Hswitch s Hreach.
  induction Hreach as [st rssi r | s st rssi _ IH | s i _ IH].
  - apply Hsetup.
  - apply Hradio, IH.
  - rewrite loop_exec. apply Hswitch, Hprog, Hstatus.
    generalize dependent s. induction (in_msgs i) as [ | m rest IHm];
      intros s IH; [exact IH | ].
    cbn [client_loop]. rewrite exec_bind. apply IHm, Hcb, IH.
Qed.

Lemma reachable_run (inputs : list Input) :
  forall s : State, reachable s -> reachable (exec (run inputs) s).
Proof.
  induction inputs as [ | i rest IH]; intros s Hreach; [exact Hreach | ].
  cbn [run]. rewrite exec_bind. apply IH, reach_loop. exact Hreach.
Qed.

Lemma callback_power_cases (power_j : option string) (s : State) :
  callback_power power_j s = (tt, s, []) \/
  exists b, callback_power power_j s = setRelay (set_relayOn b s).
Proof.
  rewrite callback_power_run. destruct power_j as [v | ]; [ | left; reflexivity].
  destruct (strncmp v "on" 2 =? 0); [right; exists true; reflexivity | ].
  destruct (strncmp v "off" 3 =? 0); [right; exists false; reflexivity | ].
  left. reflexivity.
Qed.

Lemma callback_programming_cases (prog_j progColor_j : option string) (s : State) :
  callback_programming prog_j progColor_j s = (tt, s, []) \/
  (exists name,
     callback_programming prog_j progColor_j s =
     (tt, set_progVal (findColor name) s, [])) \/
  (exists name,
     callback_programming prog_j progColor_j s =
     (tt, exec (setProgramming true) (set_progVal (findColor name) s),
      trace (setProgramming true) (set_progVal (findColor name) s))) \/
  callback_programming prog_j progColor_j s =
  (tt, exec (setProgramming false) s, trace (setProgramming false) s).
Proof.
  rewrite callback_programming_run.
  destruct prog_j as [v | ], progColor_j as [name | ]; try (left; reflexivity).
  destruct (strncmp v "on" 2 =? 0).
  - cbv zeta. destruct (findColor name >? 0).
    + right. right. left. exists name. reflexivity.
    + right. left. exists name. reflexivity.
  - destruct (strncmp v "off" 3 =? 0); [ | left; reflexivity].
    right. right. right. reflexivity.
Qed.

(** A property kept by the four things [callback] can do is kept by
    [callback]. *)
Lemma callback_keeps (P : State -> Prop) :
  (forall s b, P s -> P (exec setRelay (set_relayOn b s))) ->
  (forall s name, P s -> P (set_progVal (findColor name) s)) ->
  (forall s b, P s -> P (exec (setProgramming b) s)) ->
  forall s m, P s -> P (exec (callback m) s).
Proof.
  intros Hrelay Hval Hprog s m HP.
  destruct m as [[pw p0 p1] | ]; [ | exact HP].
  unfold callback. cbn [doc_power doc_programming_0 doc_programming_1].
  rewrite exec_bind.
  assert (HP0 : P (exec (callback_power pw) s)).
  { unfold exec at 1.
    destruct (callback_power_cases pw s) as [H | [b H]]; rewrite H;
      [exact HP | apply Hrelay; exact HP]. }
  set (s0 := exec (callback_power pw) s) in *. clearbody s0.
  unfold exec at 1.
  destruct (callback_programming_cases p0 p1 s0)
    as [H | [[name H] | [[name H] | H]]]; rewrite H; cbn [fst snd].
  - exact HP0.
  - apply Hval. exact HP0.
  - apply Hprog, Hval. exact HP0.
  - apply Hprog. exact HP0.
Qed.

Lemma codes_in_range_callback (s : State) (m : option JsonDoc) :
  codes_in_range s -> codes_in_range (exec (callback m) s).
Proof.
  apply callback_keeps; clear s m; unfold codes_in_range.
  - intros s b H. unfold exec. rewrite setRelay_run. fields.
    destruct (programming s); cbn [fst snd]; fields; exact H.
  - intros s name [_ Hc]. fields. split; [ | exact Hc].
    destruct (findColor_sound name) as [Hm | [Hr _]]; lia.
  - intros s b H. unfold exec. rewrite setProgramming_run.
    destruct (Bool.eqb (programming s) b); [exact H | ].
    destruct b; cbn [fst snd]; fields; exact H.
Qed.

Lemma codes_in_range_loop_programming (s : State) (now : Z) :
  codes_in_range s -> codes_in_range (exec (loop_programming now) s).
Proof.
  unfold codes_in_range, exec. intros [Hv Hc]. rewrite loop_programming_run.
  destruct (programming s && _); cbn [fst snd]; [ | split; assumption].
  unfold programmed. fields. split; [lia | ].
  destruct (Z.to_nat (progVal s)); fields; exact Hv.
Qed.

Lemma codes_in_range_loop_status (s : State) (now : Z) :
  codes_in_range s -> codes_in_range (exec (loop_status now) s).
Proof.
  unfold codes_in_range, exec. intros H. rewrite loop_status_run.
  destruct (negb (programming s) && _); exact H.
Qed.

Lemma codes_in_range_loop_switch (s : State) (now : Z) (r : level) :
  codes_in_range s -> codes_in_range (exec (loop_switch now r) s).
Proof.
  unfold codes_in_range. intros H.
  destruct (loop_switch_keeps now r s) as [Hc [_ Hv]]. rewrite Hc, Hv. exact H.
Qed.

Lemma colors_string_at_listed (k : Z) :
  1 <= k <= 14 -> In (colors_string_at k) (tl colors_string).
Proof.
  intros Hk.
  assert (Hcases : k = 1 \/ k = 2 \/ k = 3 \/ k = 4 \/ k = 5 \/ k = 6 \/
                   k = 7 \/ k = 8 \/ k = 9 \/ k = 10 \/ k = 11 \/ k = 12 \/
                   k = 13 \/ k = 14) by lia.
  unfold colors_string. cbn [tl].
  repeat (destruct Hcases as [-> | Hcases];
          [repeat first [left; reflexivity | right] | ]).
  subst k. repeat first [left; reflexivity | right].
Qed.

Lemma reachable_codes (s : State) : reachable s -> codes_in_range s.
Proof.
  revert s. apply reachable_invariant.
  - intros st rssi r. unfold codes_in_range. cbn. lia.
  - intros s st rssi H. exact H.
  - intros s m. apply codes_in_range_callback.
  - intros s now. apply codes_in_range_loop_status.
  - intros s now. apply codes_in_range_loop_programming.
  - intros s now r. apply codes_in_range_loop_switch.
Qed.

(** X3.  In every reachable state the pending pulse count and the
    recorded colour are within -1..14.  So the programming block never
    sends more than 14 pulses, [publishStatus] never reads
    [colors_string] outside its 15 entries, and the colour it reports is
    "Unknown" or one of the 14 colour names (never "Invalid_Color"). *)
Theorem reachable_codes_in_range :
  forall s : State,
    reachable s ->
    (-1 <= progVal s <= 14 /\ -1 <= currColor s <= 14) /\
    (Z.to_nat (progVal s) <= 14)%nat /\
    (st_color (status_of s) = "Unknown" \/
     exists k, 1 <= k <= 14 /\ st_color (status_of s) = colors_string_at k /\
               In (st_color (status_of s)) (tl colors_string)).
Proof.
  intros s Hreach.
  pose proof (reachable_codes s Hreach) as Hin.
  destruct Hin as [Hv Hc].
  split; [split; assumption | ]. split; [lia | ].
  unfold status_of. cbn [st_color].
  destruct (Z.ltb_spec (currColor s) 1) as [Hlt | Hge]; [left; reflexivity | ].
  right. exists (currColor s). split; [lia | ]. split; [reflexivity | ].
  apply colors_string_at_listed. lia.
Qed.

Lemma reachable_codes_in_range_witness :
  reachable pending /\ -1 <= progVal pending <= 14.
Proof.
  assert (Hreach : reachable pending).
  { unfold pending. apply reachable_run. unfold booted. apply reach_setup. }
  split; [exact Hreach | ].
  destruct (reachable_codes_in_range pending Hreach) as [[Hv _] _].
  exact Hv.
Defined.

Lemma light_on_as_believed_callback (s : State) (m : option JsonDoc) :
  light_on_as_believed s -> light_on_as_believed (exec (callback m) s).
Proof.
  apply callback_keeps; clear s m; unfold light_on_as_believed.
  - intros s b. unfold exec. rewrite setRelay_run. fields.
    destruct (programming s) eqn:Hp; cbn [fst snd]; fields; intros H.
    + intros _. apply H. right. first [exact Hp | reflexivity].
    + rewrite ?Hp. destruct b; [reflexivity | ].
      intros [Hr | Hr]; discriminate Hr.
  - intros s name H. fields. exact H.
  - intros s b. unfold exec. rewrite setProgramming_run.
    destruct (programming s) eqn:Hp, b; cbn [Bool.eqb fst snd]; fields;
      intros H; try reflexivity.
    + rewrite ?Hp. exact H.
    + intros _. apply H. right. first [exact Hp | reflexivity].
    + rewrite ?Hp. exact H.
Qed.

Lemma light_on_as_believed_loop_status (s : State) (now : Z) :
  light_on_as_believed s -> light_on_as_believed (exec (loop_status now) s).
Proof.
  unfold light_on_as_believed, exec. intros H. rewrite loop_status_run.
  destruct (negb (programming s) && _); exact H.
Qed.

Lemma light_on_as_believed_loop_programming (s : State) (now : Z) :
  light_on_as_believed s ->
  light_on_as_believed (exec (loop_programming now) s).
Proof.
  unfold light_on_as_believed, exec. rewrite loop_programming_run.
  destruct (programming s) eqn:Hp; cbn [andb];
    [ | cbn [fst snd]; rewrite ?Hp; auto].
  destruct ((lastProgCheck s =? 0) || _); cbn [fst snd];
    [ | rewrite ?Hp; auto].
  unfold programmed. intros H _.
  destruct (Z.to_nat (progVal s)); fields; [ | reflexivity].
  apply H. right. first [exact Hp | reflexivity].
Qed.

Lemma light_on_as_believed_loop_switch (s : State) (now : Z) (r : level) :
  light_on_as_believed s ->
  light_on_as_believed (exec (loop_switch now r) s).
Proof.
  unfold light_on_as_believed, exec. rewrite loop_switch_run.
  destruct (programming s) eqn:Hp; cbn [negb andb fst snd];
    [rewrite ?Hp; auto | ].
  destruct ((lastSwitchCheck s =? 0) || _); cbn [fst snd];
    [ | rewrite ?Hp; auto].
  destruct (level_eqb r (switchState s)); cbn [fst snd]; fields;
    [rewrite ?Hp; auto | ].
  rewrite ?Hp. intros _. destruct (relayOn s); cbn [negb]; [ | reflexivity].
  intros [Hr | Hr]; discriminate Hr.
Qed.

Lemma reachable_light_on (s : State) :
  reachable s -> light_on_as_believed s.
Proof.
  revert s. apply reachable_invariant.
  - intros st rssi r [H | H]; discriminate H.
  - intros s st rssi H. exact H.
  - intros s m. apply light_on_as_believed_callback.
  - intros s now. apply light_on_as_believed_loop_status.
  - intros s now. apply light_on_as_believed_loop_programming.
  - intros s now r. apply light_on_as_believed_loop_switch.
Qed.

Lemma pin_after_app (pin : level) (t1 t2 : list Event) :
  pin_after pin (t1 ++ t2) = pin_after (pin_after pin t1) t2.
Proof.
  revert pin. induction t1 as [ | e t1 IH]; intros pin; [reflexivity | ].
  destruct e; cbn [app pin_after]; apply IH.
Qed.

Lemma power_on_reports_true_app (pin : level) (t1 t2 : list Event) :
  power_on_reports_true pin t1 ->
  power_on_reports_true (pin_after pin t1) t2 ->
  power_on_reports_true pin (t1 ++ t2).
Proof.
  revert pin. induction t1 as [ | e t1 IH]; intros pin H1 H2; [exact H2 | ].
  destruct e; cbn [app pin_after power_on_reports_true] in *.
  - apply IH; assumption.
  - apply IH; assumption.
  - destruct H1 as [Hp H1]. split; [exact Hp | apply IH; assumption].
Qed.

Lemma pulses_report_nothing (n : nat) (pin : level) :
  power_on_reports_true pin (pulses n) /\
  pin_after pin (pulses n) = match n with O => pin | S _ => LOW end.
Proof.
  revert pin. induction n as [ | n IH]; intros pin; [split; reflexivity | ].
  cbn [pulses pulse app power_on_reports_true pin_after].
  destruct (IH LOW) as [Ht Hpin]. split; [exact Ht | ].
  rewrite Hpin. destruct n; reflexivity.
Qed.

Lemma reports_power_truly_ret {A : Type} (a : A) : reports_power_truly (ret a).
Proof. intros s HL. repeat split. exact HL. Qed.

Lemma reports_power_truly_bind {A B : Type} (m : M A) (k : A -> M B) :
  reports_power_truly m ->
  (forall a, reports_power_truly (k a)) ->
  reports_power_truly (bind m k).
Proof.
  intros Hm Hk s HL.
  destruct (Hm s HL) as [Ht1 [Hp1 HL1]].
  destruct (Hk (result m s) (exec m s) HL1) as [Ht2 [Hp2 HL2]].
  rewrite trace_bind, exec_bind. split; [ | split].
  - apply power_on_reports_true_app; [exact Ht1 | rewrite Hp1; exact Ht2].
  - rewrite pin_after_app, Hp1. exact Hp2.
  - exact HL2.
Qed.

Lemma reports_power_truly_gets {A : Type} (f : State -> A) :
  reports_power_truly (gets f).
Proof. intros s HL. repeat split. exact HL. Qed.

Lemma reports_power_truly_set_progVal (v : Z) :
  reports_power_truly (modify (set_progVal v)).
Proof. intros s HL. repeat split. exact HL. Qed.

Lemma modify_bind_run {A : Type} (f : State -> State) (m : M A) (s : State) :
  (modify f ;; m) s = m (f s).
Proof.
  unfold bind, modify. destruct (m (f s)) as [[a s2] t2]. reflexivity.
Qed.

(** Closes the side conditions on the pin level from the invariant [HL],
    whatever case analysis has done to it. *)
Ltac settle_pin HL :=
  repeat split; intros; try reflexivity; try discriminate;
  try (apply HL; right; reflexivity);
  try (apply HL; left; reflexivity);
  try (apply HL; left; assumption);
  try match goal with
      | H : _ \/ _ |- _ =>
          destruct H as [H | H]; try discriminate; try congruence;
          try (apply HL; left; exact H);
          try (apply HL; right; first [exact H | reflexivity])
      end.

(** A power command: the flag first, then [setRelay]. *)
Lemma reports_power_truly_power (b : bool) :
  reports_power_truly (modify (set_relayOn b) ;; setRelay).
Proof.
  intros s HL. unfold trace, exec. rewrite modify_bind_run, setRelay_run.
  fields. unfold light_on_as_believed in *.
  destruct (programming s) eqn:Hp; cbn [fst snd]; fields;
    cbn [power_on_reports_true pin_after]; unfold status_of; cbn [st_power];
    fields; rewrite ?Hp; destruct b; settle_pin HL.
Qed.

Lemma reports_power_truly_setProgramming (b : bool) :
  reports_power_truly (setProgramming b).
Proof.
  intros s HL. unfold trace, exec. rewrite setProgramming_run.
  unfold light_on_as_believed in *.
  destruct (programming s) eqn:Hp, b; cbn [Bool.eqb fst snd]; cbv zeta;
    cbn [fst snd]; fields; cbn [power_on_reports_true pin_after];
    rewrite ?Hp; settle_pin HL.
Qed.

Lemma reports_power_truly_callback (m : option JsonDoc) :
  reports_power_truly (callback m).
Proof.
  destruct m as [[pw p0 p1] | ]; [ | apply reports_power_truly_ret].
  unfold callback. cbn [doc_power doc_programming_0 doc_programming_1].
  apply reports_power_truly_bind.
  - unfold callback_power. destruct pw as [v | ];
      [ | apply reports_power_truly_ret].
    destruct (strncmp v "on" 2 =? 0); [apply reports_power_truly_power | ].
    destruct (strncmp v "off" 3 =? 0);
      [apply reports_power_truly_power | apply reports_power_truly_ret].
  - intros _. unfold callback_programming.
    destruct p0 as [v | ], p1 as [name | ];
      try apply reports_power_truly_ret.
    destruct (strncmp v "on" 2 =? 0).
    + apply reports_power_truly_bind;
        [apply reports_power_truly_set_progVal | intros _].
      apply reports_power_truly_bind;
        [apply reports_power_truly_gets | intros x].
      destruct (x >? 0); [ | apply reports_power_truly_ret].
      apply reports_power_truly_bind;
        [apply reports_power_truly_setProgramming | intros _].
      apply reports_power_truly_ret.
    + destruct (strncmp v "off" 3 =? 0); [ | apply reports_power_truly_ret].
      apply reports_power_truly_bind;
        [apply reports_power_truly_setProgramming | intros _].
      apply reports_power_truly_ret.
Qed.

Lemma reports_power_truly_client_loop (msgs : list (option JsonDoc)) :
  reports_power_truly (client_loop msgs).
Proof.
  induction msgs as [ | m rest IH]; [apply reports_power_truly_ret | ].
  cbn [client_loop]. apply reports_power_truly_bind;
    [apply reports_power_truly_callback | intros _; exact IH].
Qed.

Lemma reports_power_truly_loop_status (now : Z) :
  reports_power_truly (loop_status now).
Proof.
  intros s HL.
  split; [ | split; [ | apply light_on_as_believed_loop_status; exact HL]];
    unfold trace, exec; rewrite loop_status_run;
    destruct (negb (programming s) && _); cbn [fst snd]; try reflexivity.
  cbn [power_on_reports_true]. split; [ | exact I].
  unfold status_of. cbn [st_power]. fields. intros Hon. apply HL. left.
  destruct (relayOn s); [reflexivity | discriminate Hon].
Qed.

Lemma reports_power_truly_loop_programming (now : Z) :
  reports_power_truly (loop_programming now).
Proof.
  intros s HL.
  assert (Hprog : programming s = true -> relayPinLevel s = LOW)
    by (intros H; apply HL; right; exact H).
  destruct (pulses_report_nothing (Z.to_nat (progVal s)) (relayPinLevel s))
    as [Ht Hafter].
  split; [ | split; [ | apply light_on_as_believed_loop_programming; exact HL]];
    unfold trace, exec; rewrite loop_programming_run;
    destruct (programming s && _) eqn:Hc; cbn [fst snd]; try reflexivity;
    apply andb_prop in Hc; destruct Hc as [Hp _].
  - apply power_on_reports_true_app; [exact Ht | ].
    cbn [power_on_reports_true]. split; [ | exact I]. intros _.
    rewrite Hafter.
    destruct (Z.to_nat (progVal s)); [apply Hprog; exact Hp | reflexivity].
  - rewrite pin_after_app, Hafter. cbn [pin_after]. unfold programmed.
    destruct (Z.to_nat (progVal s)); fields; reflexivity.
Qed.

Lemma reports_power_truly_loop_switch (now : Z) (reading : level) :
  reports_power_truly (loop_switch now reading).
Proof.
  intros s HL.
  split; [ | split; [ | apply light_on_as_believed_loop_switch; exact HL]];
    unfold trace, exec; rewrite loop_switch_run;
    destruct (negb (programming s) && _); cbn [fst snd]; try reflexivity;
    destruct (level_eqb reading (switchState s)); cbn [fst snd];
    try reflexivity.
  cbv zeta. cbn [power_on_reports_true]. unfold status_of. cbn [st_power].
  fields. destruct (relayOn s); cbn [negb]; repeat split; try discriminate.
Qed.

Lemma reports_power_truly_loop (i : Input) : reports_power_truly (loop i).
Proof.
  unfold loop. cbv zeta.
  apply reports_power_truly_bind;
    [apply reports_power_truly_client_loop | intros _].
  apply reports_power_truly_bind;
    [apply reports_power_truly_loop_status | intros _].
  apply reports_power_truly_bind;
    [apply reports_power_truly_loop_programming | intros _].
  apply reports_power_truly_loop_switch.
Qed.

(** X4.  In every state that the sketch is in between two passes through
    [loop], whenever it believes the light is on ([relayOn]) or is
    programming, the relay pin is on.  And in every pass that starts in
    such a state, whatever it receives, no status that reports power "on"
    is published at a moment when the relay pin is off: for each status
    in the trace of the pass, the last relay write before it (or the level
    at the start of the pass, when there is none) is "on" if the status
    says so. *)
Theorem reachable_light_on_as_believed :
  forall s : State,
    reachable s ->
    (relayOn s = true \/ programming s = true -> relayPinLevel s = LOW) /\
    (forall i : Input,
       power_on_reports_true (relayPinLevel s) (trace (loop i) s) /\
       pin_after (relayPinLevel s) (trace (loop i) s) =
         relayPinLevel (exec (loop i) s)).
Proof.
  intros s Hreach.
  pose proof (reachable_light_on s Hreach) as Hinv.
  split; [exact Hinv | ].
  intros i. destruct (reports_power_truly_loop i s Hinv) as [Ht [Hpin _]].
  split; assumption.
Qed.

Lemma reachable_light_on_as_believed_witness :
  reachable pending /\ programming pending = true /\
  relayPinLevel pending = LOW /\
  power_on_reports_true LOW (trace (loop (mkInput [] 1300 LOW)) pending).
Proof.
  assert (Hreach : reachable pending).
  { unfold pending. apply reachable_run. unfold booted. apply reach_setup. }
  split; [exact Hreach | ]. split; [reflexivity | ].
  destruct (reachable_light_on_as_believed pending Hreach) as [Hinv Hpass].
  assert (Hpin : relayPinLevel pending = LOW) by (apply Hinv; right; reflexivity).
  split; [exact Hpin | ].
  destruct (Hpass (mkInput [] 1300 LOW)) as [Ht _].
  rewrite Hpin in Ht. exact Ht.
Defined.

(* ===================================================================== *)
(** ** How long a pass can block *)

Lemma total_delay_app (t1 t2 : list Event) :
  total_delay (t1 ++ t2) = total_delay t1 + total_delay t2.
Proof.
  induction t1 as [ | e t1 IH]; [reflexivity | ].
  cbn [app total_delay]. destruct e; rewrite IH; lia.
Qed.

Lemma total_delay_pulses (n : nat) : total_delay (pulses n) = 500 * Z.of_nat n.
Proof.
  induction n as [ | n IH]; [reflexivity | ].
  cbn [pulses]. rewrite total_delay_app, IH.
  change (total_delay pulse) with 500. lia.
Qed.

Lemma total_delay_setRelay (s : State) : total_delay (trace setRelay s) = 0.
Proof.
  unfold trace. rewrite setRelay_run. destruct (programming s); reflexivity.
Qed.

Lemma total_delay_setProgramming (b : bool) (s : State) :
  0 <= total_delay (trace (setProgramming b) s) <= 500.
Proof.
  unfold trace. rewrite setProgramming_run.
  destruct (Bool.eqb (programming s) b); [cbn; lia | ].
  destruct b; cbn; lia.
Qed.

Lemma total_delay_callback (m : option JsonDoc) (s : State) :
  0 <= total_delay (trace (callback m) s) <= 500.
Proof.
  destruct m as [[pw p0 p1] | ]; [ | cbn; lia].
  unfold callback. cbn [doc_power doc_programming_0 doc_programming_1].
  rewrite trace_bind, total_delay_app.
  assert (Hpow : total_delay (trace (callback_power pw) s) = 0).
  { unfold trace at 1.
    destruct (callback_power_cases pw s) as [H | [b H]]; rewrite H;
      [reflexivity | apply total_delay_setRelay]. }
  rewrite Hpow.
  set (s0 := exec (callback_power pw) s). clearbody s0.
  destruct (callback_programming_cases p0 p1 s0)
    as [H | [[name H] | [[name H] | H]]];
    unfold trace at 1 2; rewrite H; cbn [fst snd total_delay].
  - lia.
  - lia.
  - pose proof (total_delay_setProgramming true
                  (set_progVal (findColor name) s0)). lia.
  - pose proof (total_delay_setProgramming false s0). lia.
Qed.

Lemma total_delay_client_loop (msgs : list (option JsonDoc)) :
  forall s : State,
    0 <= total_delay (trace (client_loop msgs) s) <=
    500 * Z.of_nat (List.length msgs).
Proof.
  induction msgs as [ | m rest IH]; intros s; [cbn; lia | ].
  cbn [client_loop List.length]. rewrite trace_bind, total_delay_app.
  pose proof (total_delay_callback m s).
  pose proof (IH (exec (callback m) s)). lia.
Qed.

Lemma codes_in_range_client_loop (msgs : list (option JsonDoc)) :
  forall s : State,
    codes_in_range s -> codes_in_range (exec (client_loop msgs) s).
Proof.
  induction msgs as [ | m rest IH]; intros s H; [exact H | ].
  cbn [client_loop]. rewrite exec_bind. apply IH, codes_in_range_callback, H.
Qed.

(** What the part of a pass after line 324 spends in [delay]. *)
Lemma loop_device_delay_bound :
  forall (s : State) (i : Input),
    reachable s ->
    0 <= total_delay (trace (loop i) s) <=
      500 * Z.of_nat (List.length (in_msgs i)) + 7000 /\
    (in_msgs i = [] -> programming s = false ->
     total_delay (trace (loop i) s) = 0).
Proof.
  intros s i Hreach.
  pose proof (loop_trace i s) as Htrace. cbv zeta in Htrace.
  set (now := wrap32 (in_millis i)) in *.
  set (s1 := exec (client_loop (in_msgs i)) s) in *.
  set (s2 := exec (loop_status now) s1) in *.
  set (s3 := exec (loop_programming now) s2) in *.
  assert (Hstatus : forall s', total_delay (trace (loop_status now) s') = 0).
  { intros s'. unfold trace. rewrite loop_status_run.
    destruct (negb (programming s') && _); reflexivity. }
  assert (Hswitch : forall s',
            total_delay (trace (loop_switch now (in_switch i)) s') = 0).
  { intros s'. unfold trace. rewrite loop_switch_run.
    destruct (negb (programming s') && _); [ | reflexivity].
    destruct (level_eqb (in_switch i) (switchState s')); reflexivity. }
  assert (Hprog : forall s', codes_in_range s' ->
            0 <= total_delay (trace (loop_programming now) s') <= 7000 /\
            (programming s' = false ->
             total_delay (trace (loop_programming now) s') = 0)).
  { intros s' [Hv _]. unfold trace. rewrite loop_programming_run.
    destruct (programming s') eqn:Hp; cbn [andb]; [ | cbn; split; [lia | auto]].
    destruct ((lastProgCheck s' =? 0) || _); cbn [snd];
      [ | cbn; split; [lia | auto]].
    rewrite total_delay_app, total_delay_pulses. cbn [total_delay].
    split; [lia | discriminate]. }
  pose proof (reachable_codes s Hreach) as Hin.
  assert (Hin2 : codes_in_range s2).
  { apply codes_in_range_loop_status, codes_in_range_client_loop, Hin. }
  rewrite Htrace, !total_delay_app, Hstatus, Hswitch.
  destruct (Hprog s2 Hin2) as [Hb Hzero].
  pose proof (total_delay_client_loop (in_msgs i) s) as Hmsgs.
  split; [lia | ].
  intros Hnone Hp.
  assert (Hs1 : s1 = s) by (subst s1; rewrite Hnone; reflexivity).
  assert (Hp2 : programming s2 = false).
  { subst s2. unfold exec. rewrite loop_status_run, Hs1.
    destruct (negb (programming s) && _); cbn [fst snd]; fields; exact Hp. }
  rewrite (Hzero Hp2). rewrite Hnone. cbn. lia.
Qed.

(* ===================================================================== *)
(** ** The timers *)

Lemma wrap32_add_period (z k : Z) : wrap32 (z + k * 4294967296) = wrap32 z.
Proof.
  unfold wrap32.
  replace (z + k * 4294967296 + 2147483648)
    with (z + 2147483648 + k * 4294967296) by lia.
  rewrite Z_mod_plus_full. reflexivity.
Qed.

Lemma wrap32_decompose (z : Z) : exists k, wrap32 z = z + k * 4294967296.
Proof.
  exists (- ((z + 2147483648) / 4294967296)). unfold wrap32.
  pose proof (Z.div_mod (z + 2147483648) 4294967296 ltac:(lia)). lia.
Qed.

(** The difference of two clock readings, as the sketch computes it, is
    the true elapsed time reduced to 32 bits. *)
Lemma sub32_elapsed (t d : Z) :
  sub32 (wrap32 (t + d)) (wrap32 t) = wrap32 d.
Proof.
  unfold sub32.
  destruct (wrap32_decompose (t + d)) as [k1 H1].
  destruct (wrap32_decompose t) as [k2 H2].
  rewrite H1, H2.
  replace (t + d + k1 * 4294967296 - (t + k2 * 4294967296))
    with (d + (k1 - k2) * 4294967296) by lia.
  apply wrap32_add_period.
Qed.

Lemma sub32_elapsed_short (t d : Z) :
  0 <= d < 2147483648 -> sub32 (wrap32 (t + d)) (wrap32 t) = d.
Proof.
  intros Hd. rewrite sub32_elapsed. apply wrap32_small. lia.
Qed.

Lemma sub32_elapsed_long (t d : Z) :
  2147483648 <= d < 4294967296 ->
  sub32 (wrap32 (t + d)) (wrap32 t) = d - 4294967296.
Proof.
  intros Hd. rewrite sub32_elapsed.
  replace d with (d - 4294967296 + 1 * 4294967296) at 1 by lia.
  rewrite wrap32_add_period. apply wrap32_small. lia.
Qed.

(** X6.  The elapsed-time computation [now - last] on [long] survives the
    wrap-around of [millis()]: when the true elapsed time [d] is below
    2^31 ms it yields [d], wherever the clock stood; when [d] is between
    2^31 and 2^32 ms (24.9 to 49.7 days) it yields the negative value
    [d - 2^32], so that no "more than" test on it succeeds. *)
Theorem elapsed_time_across_wraparound :
  forall t d : Z,
    (0 <= d < 2147483648 -> sub32 (wrap32 (t + d)) (wrap32 t) = d) /\
    (2147483648 <= d < 4294967296 ->
     sub32 (wrap32 (t + d)) (wrap32 t) = d - 4294967296 /\
     sub32 (wrap32 (t + d)) (wrap32 t) < 0).
Proof.
  intros t d. split.
  - apply sub32_elapsed_short.
  - intros Hd. rewrite (sub32_elapsed_long t d Hd). lia.
Qed.

Lemma elapsed_time_across_wraparound_witness :
  sub32 (wrap32 (4294967290 + 100)) (wrap32 4294967290) = 100.
Proof.
  destruct (elapsed_time_across_wraparound 4294967290 100) as [H _].
  apply H. lia.
Defined.

(** X7.  The periodic status.  While not programming, with the last report
    sent when the clock stood at [t] (and [lastMsg] not 0) and [d] ms
    elapsed since, [d] below 2^31: the pass reports exactly when more than
    60000 ms have elapsed, wrapped clock or not, and then restarts the
    period; at 60000 ms or less it does nothing.  With [lastMsg == 0] (as
    after boot) it reports whatever the clock says. *)
Theorem periodic_status_period :
  forall (s : State) (t d : Z),
    programming s = false ->
    0 <= d < 2147483648 ->
    let now := wrap32 (t + d) in
    (lastMsg s = wrap32 t -> lastMsg s <> 0 -> d > 60000 ->
     loop_status now s =
     (tt, set_lastMsg now s, [EPublish (status_of (set_lastMsg now s))])) /\
    (lastMsg s = wrap32 t -> lastMsg s <> 0 -> d <= 60000 ->
     loop_status now s = (tt, s, [])) /\
    (lastMsg s = 0 ->
     loop_status now s =
     (tt, set_lastMsg now s, [EPublish (status_of (set_lastMsg now s))])).
Proof.
  intros s t d Hp Hd now.
  pose proof (sub32_elapsed_short t d Hd) as Hel. fold now in Hel.
  repeat split.
  - intros Hlast Hnz Hgt. rewrite loop_status_run, Hp, Hlast, Hel.
    replace (d >? timeBetweenMessages) with true
      by (symmetry; apply Z.gtb_lt; change timeBetweenMessages with 60000; lia).
    rewrite orb_true_r. reflexivity.
  - intros Hlast Hnz Hle. rewrite loop_status_run, Hp.
    replace (lastMsg s =? 0) with false by (symmetry; apply Z.eqb_neq; exact Hnz).
    rewrite Hlast, Hel.
    replace (d >? timeBetweenMessages) with false
      by (symmetry; rewrite Z.gtb_ltb; apply Z.ltb_ge;
          change timeBetweenMessages with 60000; lia).
    reflexivity.
  - intros Hzero. rewrite loop_status_run, Hp, Hzero. reflexivity.
Qed.

Lemma periodic_status_period_witness :
  let s := set_lastMsg (wrap32 4294960000) booted in
  programming s = false /\
  publishes (trace (loop_status (wrap32 (4294960000 + 60001))) s) =
    [status_of (set_lastMsg (wrap32 (4294960000 + 60001)) s)].
Proof.
  cbv zeta. split; [reflexivity | ].
  assert (Hd : 0 <= 60001 < 2147483648) by lia.
  destruct (periodic_status_period (set_lastMsg (wrap32 4294960000) booted)
              4294960000 60001 eq_refl Hd) as [Hfire _].
  unfold trace. rewrite Hfire; [reflexivity | reflexivity | | lia].
  vm_compute. discriminate.
Defined.

Lemma switch_timer_elapsed_test (now : Z) (s : State) :
  switch_timer_elapsed now s ->
  (lastSwitchCheck s =? 0) ||
  (sub32 now (lastSwitchCheck s) >? timeBetweenSwitchCheck) = true.
Proof.
  intros [H0 | Hgt].
  - rewrite H0. reflexivity.
  - apply orb_true_iff. right. apply Z.gtb_lt. lia.
Qed.

(** X8.  The switch monitor, while not programming and with its timer
    elapsed, is an edge detector.  The poll records the reading and the
    time.  If the reading equals the stored one nothing else happens; if
    it differs, [relayOn] is flipped, the pin is written to match it and
    one status is published.  A second poll that reads the same level
    again leaves the relay alone, whatever the clock. *)
Theorem switch_poll_edge_detection :
  forall (s : State) (now now' : Z) (reading : level),
    programming s = false ->
    switch_timer_elapsed now s ->
    let s' := exec (loop_switch now reading) s in
    (switchState s' = reading /\ lastSwitchCheck s' = now) /\
    (reading = switchState s ->
     relayOn s' = relayOn s /\ relayPinLevel s' = relayPinLevel s /\
     trace (loop_switch now reading) s = []) /\
    (reading <> switchState s ->
     relayOn s' = negb (relayOn s) /\
     relayPinLevel s' = (if relayOn s' then LOW else HIGH) /\
     trace (loop_switch now reading) s =
       [EDigitalWrite relayPin (relayPinLevel s'); EPublish (status_of s')]) /\
    (relayOn (exec (loop_switch now' reading) s') = relayOn s' /\
     trace (loop_switch now' reading) s' = []).
Proof.
  intros s now now' reading Hp Hel s'.
  assert (Hrun := loop_switch_run now reading s).
  rewrite Hp, (switch_timer_elapsed_test now s Hel) in Hrun. cbn [negb andb] in Hrun.
  assert (Hsame : level_eqb reading reading = true) by (destruct reading; reflexivity).
  assert (Hagain : relayOn (exec (loop_switch now' reading) s') = relayOn s' /\
                   trace (loop_switch now' reading) s' = []).
  { assert (Hsw : switchState s' = reading /\ programming s' = false).
    { subst s'. unfold exec. rewrite Hrun.
      destruct (level_eqb reading (switchState s)) eqn:He; cbn [fst snd]; fields;
        [ | auto].
      split; [ | exact Hp]. destruct reading, (switchState s);
        try reflexivity; discriminate He. }
    destruct Hsw as [Hsw Hp'].
    unfold exec, trace. rewrite loop_switch_run, Hp', Hsw, Hsame.
    cbn [negb andb]. destruct ((lastSwitchCheck s' =? 0) || _); split; reflexivity. }
  split; [ | split; [ | split; [ | exact Hagain]]].
  - subst s'. unfold exec. rewrite Hrun.
    destruct (level_eqb reading (switchState s)) eqn:He; cbn [fst snd]; fields;
      [ | auto].
    split; [ | reflexivity]. destruct reading, (switchState s);
      try reflexivity; discriminate He.
  - intros Heq. subst s'. unfold exec, trace. rewrite Hrun, <- Heq, Hsame.
    repeat split.
  - intros Hne.
    assert (He : level_eqb reading (switchState s) = false).
    { destruct reading, (switchState s); try reflexivity; contradiction Hne;
        reflexivity. }
    subst s'. unfold exec, trace. rewrite Hrun, He. cbv zeta. cbn [fst snd]. fields.
    destruct (relayOn s); repeat split.
Qed.

Lemma switch_poll_edge_detection_witness :
  programming booted = false /\
  switch_timer_elapsed 1000 booted /\
  relayOn (exec (loop_switch 1000 LOW) booted) = true /\
  relayOn (exec (loop_switch 1300 LOW) (exec (loop_switch 1000 LOW) booted)) = true.
Proof.
  assert (Hel : switch_timer_elapsed 1000 booted) by (left; reflexivity).
  split; [reflexivity | ]. split; [exact Hel | ].
  destruct (switch_poll_edge_detection booted 1000 1300 LOW eq_refl Hel)
    as [_ [_ [Hdiff [Hagain _]]]].
  assert (Hne : LOW <> switchState booted) by (cbn; discriminate).
  destruct (Hdiff Hne) as [Hflip _].
  split; [rewrite Hflip; reflexivity | ].
  rewrite Hagain, Hflip. reflexivity.
Defined.

(** X9.  A programming request is served only when the timer test of the
    programming block lets it.  After a first programming cycle (so that
    [lastProgCheck] is not 0), a request that is pending when the time
    elapsed since that cycle started is at most 200 ms, or between 2^31
    and 2^32 ms (24.9 to 49.7 days), is not served by the pass: the block
    does nothing, [programming] stays raised, and with it the switch poll
    and the periodic status stay off. *)
Theorem pending_request_waits_for_timer :
  forall (s : State) (t d : Z) (reading : level),
    programming s = true ->
    lastProgCheck s = wrap32 t ->
    lastProgCheck s <> 0 ->
    0 <= d <= 200 \/ 2147483648 <= d < 4294967296 ->
    let now := wrap32 (t + d) in
    loop_programming now s = (tt, s, []) /\
    loop (mkInput [] (t + d) reading) s = (tt, s, []).
Proof.
  intros s t d reading Hp Hlast Hnz Hd now.
  assert (Helapsed : sub32 now (lastProgCheck s) <= 200).
  { subst now. rewrite Hlast.
    destruct Hd as [Hd | Hd];
      [rewrite sub32_elapsed_short | rewrite sub32_elapsed_long]; lia. }
  assert (Hclosed : ~ prog_gate_open now s).
  { intros [H0 | Hgt]; [contradiction | ].
    change timeBetweenProgCheck with 200 in Hgt. lia. }
  assert (Hblock : loop_programming now s = (tt, s, [])).
  { rewrite loop_programming_run, Hp, (prog_gate_closed_test now s Hclosed).
    reflexivity. }
  split; [exact Hblock | ].
  unfold loop. cbn [in_msgs in_millis in_switch client_loop]. fold now.
  apply bind_run with (a := tt) (s1 := s) (t1 := []); [reflexivity | ].
  apply bind_run with (a := tt) (s1 := s) (t1 := []);
    [apply loop_status_while_programming; exact Hp | ].
  apply bind_run with (a := tt) (s1 := s) (t1 := []); [exact Hblock | ].
  apply loop_switch_while_programming. exact Hp.
Qed.

Lemma pending_request_waits_for_timer_witness :
  programming pending = true /\
  lastProgCheck pending = wrap32 1000 /\
  exec (loop (mkInput [] (1000 + 2294966396) LOW)) pending = pending.
Proof.
  split; [reflexivity | ]. split; [reflexivity | ].
  assert (Hnz : lastProgCheck pending <> 0) by (vm_compute; discriminate).
  assert (Hd : 0 <= 2294966396 <= 200 \/ 2147483648 <= 2294966396 < 4294967296)
    by (right; lia).
  destruct (pending_request_waits_for_timer pending 1000 2294966396 LOW
              eq_refl eq_refl Hnz Hd) as [_ Hpass].
  unfold exec. rewrite Hpass. reflexivity.
Defined.

(* ===================================================================== *)
(** ** The command dispatcher *)

(** X10.  [setProgramming(state)] always leaves [programming == state] and
    returns whether it changed anything, which it does exactly when the
    flag differed.  When it changes the flag, the last thing it publishes
    is a status that shows the new flag; asked again for the state now
    held, it returns false, publishes nothing and touches nothing. *)
Theorem setProgramming_reaches_state :
  forall (state : bool) (s : State),
    let s' := exec (setProgramming state) s in
    programming s' = state /\
    result (setProgramming state) s = negb (Bool.eqb (programming s) state) /\
    (programming s <> state ->
     last (publishes (trace (setProgramming state) s)) (status_of s) =
       status_of s' /\
     st_programming (status_of s') = (if state then "on" else "off")) /\
    (programming s = state -> setProgramming state s = (false, s, [])) /\
    setProgramming state s' = (false, s', []).
Proof.
  intros state s s'. subst s'. unfold exec, trace, result.
  rewrite (setProgramming_run state s).
  destruct (programming s) eqn:Hp, state; cbn [Bool.eqb negb fst snd];
    cbv zeta; cbn [fst snd];
    rewrite setProgramming_run; fields; rewrite ?Hp; cbn [Bool.eqb];
    repeat split; intros; try reflexivity; try congruence.
Qed.

Lemma setProgramming_reaches_state_witness :
  programming booted <> true /\
  st_programming
    (last (publishes (trace (setProgramming true) booted)) (status_of booted)) =
  "on".
Proof.
  assert (Hne : programming booted <> true) by (cbn; discriminate).
  split; [exact Hne | ].
  destruct (setProgramming_reaches_state true booted) as [_ [_ [Hlast _]]].
  destruct (Hlast Hne) as [Heq Hon]. rewrite Heq. exact Hon.
Defined.

(** A message that only carries ["programming": ["off", name]]. *)
Lemma callback_prog_off_run (name : string) (s : State) :
  callback (Some (mkDoc None (Some "off") (Some name))) s =
  (tt, exec (setProgramming false) s, trace (setProgramming false) s).
Proof.
  unfold callback. cbn [doc_power doc_programming_0 doc_programming_1].
  apply bind_run with (a := tt) (s1 := s) (t1 := []);
    [apply callback_power_run | ].
  rewrite callback_programming_run.
  replace (strncmp "off" "on" 2 =? 0) with false by reflexivity.
  replace (strncmp "off" "off" 3 =? 0) with true by reflexivity.
  reflexivity.
Qed.

(** X11.  Cancelling.  A programming "off" message (its array needs a
    second string element, which is not looked at) received while a
    request is pending lowers [programming] and publishes one status with
    programming "off"; it writes nothing to the relay, sends no pulse and
    leaves [currColor], [relayOn] and the pending count as they are, and
    the programming block of the pass then does nothing.  Received while
    not programming, the message does nothing at all. *)
Theorem programming_off_cancels :
  forall (s : State) (name : string) (now : Z),
    let m := Some (mkDoc None (Some "off") (Some name)) in
    (programming s = true ->
     callback m s =
       (tt, set_programming false s,
        [EPublish (status_of (set_programming false s))]) /\
     st_programming (status_of (set_programming false s)) = "off" /\
     loop_programming now (exec (callback m) s) = (tt, exec (callback m) s, [])) /\
    (programming s = false -> callback m s = (tt, s, [])).
Proof.
  intros s name now m. subst m. split; intros Hp.
  - assert (Hrun :
      callback (Some (mkDoc None (Some "off") (Some name))) s =
      (tt, set_programming false s,
       [EPublish (status_of (set_programming false s))])).
    { rewrite callback_prog_off_run. unfold exec, trace.
      rewrite setProgramming_run, Hp. reflexivity. }
    split; [exact Hrun | ]. split; [reflexivity | ].
    unfold exec. rewrite Hrun. cbn [fst snd].
    rewrite loop_programming_run. reflexivity.
  - rewrite callback_prog_off_run. unfold exec, trace.
    rewrite setProgramming_run, Hp. reflexivity.
Qed.

Lemma programming_off_cancels_witness :
  programming pending = true /\
  programming (exec (callback (Some (mkDoc None (Some "off") (Some "Red")))) pending)
  = false /\
  currColor (exec (callback (Some (mkDoc None (Some "off") (Some "Red")))) pending)
  = Blue.
Proof.
  split; [reflexivity | ].
  destruct (programming_off_cancels pending "Red" 0) as [Hcancel _].
  destruct (Hcancel eq_refl) as [Hrun _].
  unfold exec. rewrite Hrun. split; reflexivity.
Defined.

Lemma c_bytes_firstn (n m : nat) :
  forall s : string, c_bytes n s = firstn n (c_bytes (n + m) s).
Proof.
  induction n as [ | n IH]; intros s; [reflexivity | ].
  cbn [c_bytes Nat.add]. destruct (char_at s =? 0); [reflexivity | ].
  cbn [firstn]. rewrite <- IH. reflexivity.
Qed.

Lemma strncmp_on_eqb (v : string) :
  (strncmp v "on" 2 =? 0) = true <-> c_bytes 2 v = c_bytes 2 "on".
Proof. rewrite Z.eqb_eq. apply strncmp_zero_iff. Qed.

Lemma strncmp_off_eqb (v : string) :
  (strncmp v "off" 3 =? 0) = true <-> c_bytes 3 v = c_bytes 3 "off".
Proof. rewrite Z.eqb_eq. apply strncmp_zero_iff. Qed.

Lemma off_is_not_on (v : string) :
  c_bytes 3 v = c_bytes 3 "off" -> (strncmp v "on" 2 =? 0) = false.
Proof.
  intros Hoff. apply not_true_is_false. intros Hon.
  apply strncmp_on_eqb in Hon.
  rewrite (c_bytes_firstn 2 1 v) in Hon. cbn [Nat.add] in Hon.
  rewrite Hoff in Hon. vm_compute in Hon. discriminate Hon.
Qed.

(** X12.  The verbs are recognised by their first bytes only: a power
    value that starts with "on" (say "online") acts exactly as "on", one
    that starts with "off" exactly as "off", and the same holds for the
    first element of the programming array. *)
Theorem verbs_match_by_prefix :
  forall (v name : string) (s : State),
    (c_bytes 2 v = c_bytes 2 "on" ->
     callback (power_cmd v) s = callback (power_cmd "on") s /\
     callback (Some (mkDoc None (Some v) (Some name))) s =
       callback (prog_on name) s) /\
    (c_bytes 3 v = c_bytes 3 "off" ->
     callback (power_cmd v) s = callback (power_cmd "off") s /\
     callback (Some (mkDoc None (Some v) (Some name))) s =
       callback (Some (mkDoc None (Some "off") (Some name))) s).
Proof.
  intros v name s. split.
  - intros Hon. apply strncmp_on_eqb in Hon. split.
    + rewrite !callback_power_cmd_run, !callback_power_run, Hon. reflexivity.
    + unfold callback, prog_on.
      cbn [doc_power doc_programming_0 doc_programming_1].
      unfold bind. rewrite !callback_power_run, !callback_programming_run, Hon.
      reflexivity.
  - intros Hoff. pose proof (off_is_not_on v Hoff) as Hnot.
    apply strncmp_off_eqb in Hoff. split.
    + rewrite !callback_power_cmd_run, !callback_power_run, Hnot, Hoff.
      reflexivity.
    + unfold callback. cbn [doc_power doc_programming_0 doc_programming_1].
      unfold bind. rewrite !callback_power_run, !callback_programming_run.
      rewrite Hnot, Hoff. reflexivity.
Qed.

Lemma verbs_match_by_prefix_witness :
  c_bytes 2 "online" = c_bytes 2 "on" /\
  relayOn (exec (callback (power_cmd "online")) booted) = true.
Proof.
  split; [reflexivity | ].
  destruct (verbs_match_by_prefix "online" "Blue" booted) as [Hon _].
  destruct (Hon eq_refl) as [Hpower _].
  unfold exec. rewrite Hpower. reflexivity.
Defined.

(** X13.  What the dispatcher ignores.  A payload that does not
    deserialize, a message without a power string and with a programming
    array that lacks its first or its second string element (a lone
    ["off"] included), and verbs that start neither with "on" nor with
    "off" leave the state as it is and produce no relay write, no delay
    and no status. *)
Theorem ignored_messages :
  forall (s : State) (p0 p1 : option string) (v name : string),
    callback None s = (tt, s, []) /\
    callback (Some (mkDoc None p0 None)) s = (tt, s, []) /\
    callback (Some (mkDoc None None p1)) s = (tt, s, []) /\
    (c_bytes 2 v <> c_bytes 2 "on" -> c_bytes 3 v <> c_bytes 3 "off" ->
     callback (power_cmd v) s = (tt, s, []) /\
     callback (Some (mkDoc None (Some v) (Some name))) s = (tt, s, [])).
Proof.
  intros s p0 p1 v name.
  split; [reflexivity | ].
  split; [destruct p0; reflexivity | ].
  split; [destruct p1; reflexivity | ].
  intros Hon Hoff.
  assert (Hon' : (strncmp v "on" 2 =? 0) = false).
  { apply not_true_is_false. intros H. apply Hon, strncmp_on_eqb, H. }
  assert (Hoff' : (strncmp v "off" 3 =? 0) = false).
  { apply not_true_is_false. intros H. apply Hoff, strncmp_off_eqb, H. }
  split.
  - rewrite callback_power_cmd_run, callback_power_run, Hon', Hoff'.
    reflexivity.
  - unfold callback. cbn [doc_power doc_programming_0 doc_programming_1].
    apply bind_run with (a := tt) (s1 := s) (t1 := []);
      [apply callback_power_run | ].
    rewrite callback_programming_run, Hon', Hoff'. reflexivity.
Qed.

Lemma ignored_messages_witness :
  c_bytes 2 "toggle" <> c_bytes 2 "on" /\
  c_bytes 3 "toggle" <> c_bytes 3 "off" /\
  exec (callback (power_cmd "toggle")) booted = booted.
Proof.
  assert (Hon : c_bytes 2 "toggle" <> c_bytes 2 "on")
    by (vm_compute; discriminate).
  assert (Hoff : c_bytes 3 "toggle" <> c_bytes 3 "off")
    by (vm_compute; discriminate).
  split; [exact Hon | ]. split; [exact Hoff | ].
  destruct (ignored_messages booted None None "toggle" "Blue")
    as [_ [_ [_ Hverb]]].
  destruct (Hverb Hon Hoff) as [Hpower _].
  unfold exec. rewrite Hpower. reflexivity.
Defined.

(** X14.  While [programming == true] nothing but the programming block
    writes the relay pin: no message makes [callback] write it or change
    its level, [setRelay] and [togglePower] write nothing, and the
    periodic-status and switch-poll steps of [loop] do nothing at all. *)
Theorem relay_pin_reserved_while_programming :
  forall (s : State) (m : option JsonDoc) (now : Z) (reading : level),
    programming s = true ->
    (relay_writes (trace (callback m) s) = [] /\
     relayPinLevel (exec (callback m) s) = relayPinLevel s) /\
    setRelay s = (tt, s, []) /\
    (relay_writes (trace (togglePower reading) s) = [] /\
     relayPinLevel (exec (togglePower reading) s) = relayPinLevel s /\
     relayOn (exec (togglePower reading) s) = relayOn s) /\
    loop_status now s = (tt, s, []) /\
    loop_switch now reading s = (tt, s, []).
Proof.
  intros s m now reading Hp.
  split; [apply callback_while_programming_no_relay_write; exact Hp | ].
  split; [apply setRelay_while_programming; exact Hp | ].
  split.
  { unfold trace, exec. rewrite (togglePower_while_programming reading s Hp).
    repeat split. }
  split; [apply loop_status_while_programming; exact Hp | ].
  apply loop_switch_while_programming. exact Hp.
Qed.

Lemma relay_pin_reserved_while_programming_witness :
  programming pending = true /\
  relay_writes (trace (callback (power_cmd "off")) pending) = [] /\
  relayPinLevel (exec (callback (power_cmd "off")) pending) = LOW.
Proof.
  split; [reflexivity | ].
  destruct (relay_pin_reserved_while_programming
              pending (power_cmd "off") 0 HIGH eq_refl) as [[Hw Hpin] _].
  split; [exact Hw | ]. rewrite Hpin. reflexivity.
Defined.

(** X15.  A message that carries both fields is served power first,
    programming second, and the programming request wins: received while
    not programming with a table name, whatever its power field says, it
    leaves the relay on ([relayOn] true, pin on, the last relay write an
    "on"), [programming] raised and the code of the name pending. *)
Theorem programming_request_overrides_power :
  forall (s : State) (power_j : option string) (k : Z),
    1 <= k <= 14 ->
    programming s = false ->
    let m := Some (mkDoc power_j (Some "on") (Some (colors_string_at k))) in
    let s' := exec (callback m) s in
    programming s' = true /\ progVal s' = k /\
    relayOn s' = true /\ relayPinLevel s' = LOW /\
    last (relay_writes (trace (callback m) s)) HIGH = LOW /\
    total_delay (trace (callback m) s) = 500.
Proof.
  intros s power_j k Hk Hp m s'. subst s' m.
  unfold callback. cbn [doc_power doc_programming_0 doc_programming_1].
  rewrite trace_bind, exec_bind, relay_writes_app, total_delay_app.
  destruct (callback_power_facts power_j s) as [Hp0 _]. rewrite Hp in Hp0.
  assert (Hd0 : total_delay (trace (callback_power power_j) s) = 0).
  { unfold trace.
    destruct (callback_power_cases power_j s) as [H | [b H]]; rewrite H;
      [reflexivity | apply total_delay_setRelay]. }
  rewrite Hd0.
  set (w0 := relay_writes (trace (callback_power power_j) s)). clearbody w0.
  set (s0 := exec (callback_power power_j) s) in *. clearbody s0.
  set (r0 := result (callback_power power_j) s). clearbody r0.
  unfold exec, trace. rewrite callback_programming_run.
  replace (strncmp "on" "on" 2 =? 0) with true by reflexivity.
  rewrite (findColor_at_code k Hk). cbv zeta.
  replace (k >? 0) with true by (symmetry; apply Z.gtb_lt; lia).
  unfold exec, trace. rewrite setProgramming_run. fields. rewrite Hp0.
  cbn [Bool.eqb fst snd]. fields.
  repeat split; try reflexivity.
  cbn [relay_writes flat_map app]. rewrite last_last. reflexivity.
Qed.

Lemma programming_request_overrides_power_witness :
  (1 <= Pink <= 14) /\
  programming booted = false /\
  relayPinLevel
    (exec (callback (Some (mkDoc (Some "off") (Some "on")
                                 (Some (colors_string_at Pink))))) booted) = LOW.
Proof.
  assert (Hk : 1 <= Pink <= 14) by (unfold Pink; lia).
  split; [exact Hk | ]. split; [reflexivity | ].
  destruct (programming_request_overrides_power booted (Some "off") Pink Hk eq_refl)
    as [_ [_ [_ [Hpin _]]]].
  exact Hpin.
Defined.

(** X16.  A request that arrives while another is pending is not refused:
    [setProgramming] ignores it, but its pulse count has already replaced
    the pending one, so the block programs the colour asked for last. *)
Theorem last_programming_request_wins :
  forall (s : State) (k now : Z),
    1 <= k <= 14 ->
    programming s = true ->
    prog_gate_open now s ->
    let s1 := exec (callback (prog_on (colors_string_at k))) s in
    callback (prog_on (colors_string_at k)) s = (tt, set_progVal k s, []) /\
    relay_view (trace (loop_programming now) s1) = pulses (Z.to_nat k) /\
    currColor (exec (loop_programming now) s1) = k.
Proof.
  intros s k now Hk Hp Hgate s1.
  assert (Hrun : callback (prog_on (colors_string_at k)) s =
                 (tt, set_progVal k s, [])).
  { unfold callback, prog_on.
    cbn [doc_power doc_programming_0 doc_programming_1].
    apply bind_run with (a := tt) (s1 := s) (t1 := []);
      [apply callback_power_run | ].
    rewrite callback_programming_run.
    replace (strncmp "on" "on" 2 =? 0) with true by reflexivity.
    rewrite (findColor_at_code k Hk). cbv zeta.
    replace (k >? 0) with true by (symmetry; apply Z.gtb_lt; lia).
    unfold exec, trace. rewrite setProgramming_run. fields. rewrite Hp.
    reflexivity. }
  split; [exact Hrun | ].
  assert (Hs1 : s1 = set_progVal k s)
    by (subst s1; unfold exec; rewrite Hrun; reflexivity).
  assert (Hblock := loop_programming_open now s1).
  rewrite Hs1 in *. fields.
  specialize (Hblock Hp Hgate). fields.
  unfold trace, exec. rewrite Hblock. cbn [fst snd].
  split.
  - rewrite relay_view_app, relay_view_pulses. apply app_nil_r.
  - unfold programmed. fields. reflexivity.
Qed.

Lemma last_programming_request_wins_witness :
  (1 <= White <= 14) /\
  programming pending = true /\
  progVal pending = Red /\
  prog_gate_open 1300 pending /\
  currColor (exec (loop_programming 1300)
               (exec (callback (prog_on (colors_string_at White))) pending)) = White.
Proof.
  assert (Hk : 1 <= White <= 14) by (unfold White; lia).
  assert (Hg : prog_gate_open 1300 pending).
  { right. vm_compute. reflexivity. }
  split; [exact Hk | ]. split; [reflexivity | ]. split; [reflexivity | ].
  split; [exact Hg | ].
  destruct (last_programming_request_wins pending White 1300 Hk eq_refl Hg)
    as [_ [_ Hc]].
  exact Hc.
Defined.

(* ===================================================================== *)
(** ** Link quality, continued *)

Lemma getQuality_connected (s : State) :
  WiFi_status s = WL_CONNECTED ->
  result getQuality s =
  if WiFi_RSSI s <=? -100 then 0
  else if WiFi_RSSI s >=? -50 then 100
  else 2 * (WiFi_RSSI s + 100).
Proof.
  intros Hst. unfold result, getQuality. run_fw. rewrite Hst.
  cbn [Z.eqb WL_CONNECTED Pos.eqb negb].
  destruct (Z.leb_spec (WiFi_RSSI s) (-100)); [reflexivity | ].
  destruct (Z.geb_spec (WiFi_RSSI s) (-50)); [reflexivity | ].
  cbn [fst]. rewrite (wrap32_small (WiFi_RSSI s + 100)) by lia.
  apply wrap32_small. lia.
Qed.

(** X17.  While the radio is associated the link quality never decreases
    when the signal gets stronger, it is an even number, and it joins its
    two plateaus without a jump larger than 2 per dBm. *)
Theorem getQuality_monotone :
  forall s1 s2 : State,
    WiFi_status s1 = WL_CONNECTED ->
    WiFi_status s2 = WL_CONNECTED ->
    WiFi_RSSI s1 <= WiFi_RSSI s2 ->
    result getQuality s1 <= result getQuality s2 /\
    result getQuality s2 - result getQuality s1 <=
      2 * (WiFi_RSSI s2 - WiFi_RSSI s1) /\
    result getQuality s1 mod 2 = 0.
Proof.
  intros s1 s2 H1 H2 Hle.
  rewrite (getQuality_connected s1 H1), (getQuality_connected s2 H2).
  destruct (Z.leb_spec (WiFi_RSSI s1) (-100)),
           (Z.leb_spec (WiFi_RSSI s2) (-100)),
           (Z.geb_spec (WiFi_RSSI s1) (-50)),
           (Z.geb_spec (WiFi_RSSI s2) (-50));
    repeat split; try lia; try reflexivity;
    replace (2 * (WiFi_RSSI s1 + 100)) with ((WiFi_RSSI s1 + 100) * 2) by lia;
    apply Z_mod_mult.
Qed.

Lemma getQuality_monotone_witness :
  result getQuality (set_radio WL_CONNECTED (-80) booted) <=
  result getQuality (set_radio WL_CONNECTED (-60) booted).
Proof.
  assert (Hle : WiFi_RSSI (set_radio WL_CONNECTED (-80) booted) <=
                WiFi_RSSI (set_radio WL_CONNECTED (-60) booted)) by (cbn; lia).
  destruct (getQuality_monotone (set_radio WL_CONNECTED (-80) booted)
              (set_radio WL_CONNECTED (-60) booted) eq_refl eq_refl Hle)
    as [H _].
  exact H.
Defined.

(* ===================================================================== *)
(** ** Device identity and topics *)

Lemma hex_digit_inj (a b : Z) :
  0 <= a < 16 -> 0 <= b < 16 -> hex_digit a = hex_digit b -> a = b.
Proof.
  intros Ha Hb.
  assert (Hac : a = 0 \/ a = 1 \/ a = 2 \/ a = 3 \/ a = 4 \/ a = 5 \/ a = 6 \/
                a = 7 \/ a = 8 \/ a = 9 \/ a = 10 \/ a = 11 \/ a = 12 \/
                a = 13 \/ a = 14 \/ a = 15) by lia.
  assert (Hbc : b = 0 \/ b = 1 \/ b = 2 \/ b = 3 \/ b = 4 \/ b = 5 \/ b = 6 \/
                b = 7 \/ b = 8 \/ b = 9 \/ b = 10 \/ b = 11 \/ b = 12 \/
                b = 13 \/ b = 14 \/ b = 15) by lia.
  clear Ha Hb.
  repeat (destruct Hac as [-> | Hac]); try subst a;
    repeat (destruct Hbc as [-> | Hbc]); try subst b;
    intros H; try reflexivity; vm_compute in H; discriminate H.
Qed.

Lemma hex_digit_not_colon (a : Z) :
  0 <= a < 16 -> hex_digit a <> ":"%char.
Proof.
  intros Ha.
  assert (Hac : a = 0 \/ a = 1 \/ a = 2 \/ a = 3 \/ a = 4 \/ a = 5 \/ a = 6 \/
                a = 7 \/ a = 8 \/ a = 9 \/ a = 10 \/ a = 11 \/ a = 12 \/
                a = 13 \/ a = 14 \/ a = 15) by lia.
  clear Ha.
  repeat (destruct Hac as [-> | Hac]); try subst a;
    vm_compute; discriminate.
Qed.

(** Two bytes in hexadecimal, each followed by the end of the string or by
    a colon, can be told apart. *)
Lemma String_16_inj (a b : Z) (r1 r2 : string) :
  0 <= a < 256 -> 0 <= b < 256 ->
  (r1 = EmptyString \/ exists t, r1 = String ":"%char t) ->
  (r2 = EmptyString \/ exists t, r2 = String ":"%char t) ->
  String.append (String_16 a) r1 = String.append (String_16 b) r2 ->
  a = b /\ r1 = r2.
Proof.
  intros Ha Hb Hr1 Hr2. unfold String_16.
  destruct (Z.ltb_spec a 16) as [Ha1 | Ha2], (Z.ltb_spec b 16) as [Hb1 | Hb2];
    cbn [String.append]; intros H.
  - injection H as Hd Hr. split; [ | exact Hr].
    apply hex_digit_inj; [lia | lia | exact Hd].
  - injection H as _ Hr. exfalso.
    destruct Hr1 as [-> | [t ->]]; [discriminate Hr | ].
    injection Hr as Hc _.
    apply (hex_digit_not_colon (b mod 16)); [ | symmetry; exact Hc].
    apply Z.mod_pos_bound. lia.
  - injection H as _ Hr. exfalso.
    destruct Hr2 as [-> | [t ->]]; [discriminate Hr | ].
    injection Hr as Hc _.
    apply (hex_digit_not_colon (a mod 16)); [ | exact Hc].
    apply Z.mod_pos_bound. lia.
  - injection H as Hhi Hlo Hr. split; [ | exact Hr].
    assert (Hq : a / 16 = b / 16).
    { apply hex_digit_inj; [ | | exact Hhi].
      - split; [apply Z.div_pos; lia | apply Z.div_lt_upper_bound; lia].
      - split; [apply Z.div_pos; lia | apply Z.div_lt_upper_bound; lia]. }
    assert (Hm : a mod 16 = b mod 16).
    { apply hex_digit_inj; [ | | exact Hlo]; apply Z.mod_pos_bound; lia. }
    rewrite (Z.div_mod a 16), (Z.div_mod b 16) by lia. rewrite Hq, Hm.
    reflexivity.
Qed.

Lemma macToStr_for_tail (mac : list Z) (i todo : nat) :
  let r := String.append (if (i <? 5)%nat then ":" else EmptyString)
             (macToStr_for mac (S i) todo) in
  (i + S todo = 6)%nat ->
  r = EmptyString \/ exists t, r = String ":"%char t.
Proof.
  intros r Hi. subst r.
  destruct (Nat.ltb_spec i 5) as [Hlt | Hge].
  - right. cbn [String.append]. eauto.
  - left. assert (todo = 0%nat) by lia. subst todo. reflexivity.
Qed.

Lemma macToStr_for_inj (m1 m2 : list Z) :
  (forall j, 0 <= nth j m1 0 < 256) ->
  (forall j, 0 <= nth j m2 0 < 256) ->
  forall todo i,
    (i + todo = 6)%nat ->
    macToStr_for m1 i todo = macToStr_for m2 i todo ->
    forall j, (i <= j < 6)%nat -> nth j m1 0 = nth j m2 0.
Proof.
  intros H1 H2.
  induction todo as [ | todo IH]; intros i Hi Heq j Hj; [lia | ].
  cbn [macToStr_for] in Heq.
  apply String_16_inj in Heq;
    [ | apply H1 | apply H2
      | apply (macToStr_for_tail m1 i todo); lia
      | apply (macToStr_for_tail m2 i todo); lia].
  destruct Heq as [Hbyte Hrest].
  destruct (Nat.eq_dec j i) as [-> | Hne]; [exact Hbyte | ].
  apply (IH (S i)); [lia | | lia].
  destruct (i <? 5)%nat; cbn [String.append] in Hrest;
    [injection Hrest as Hrest | ]; exact Hrest.
Qed.

Lemma is_mac_nth (mac : list Z) :
  is_mac mac -> forall j, 0 <= nth j mac 0 < 256.
Proof.
  intros [_ Hall] j.
  destruct (Nat.lt_ge_cases j (List.length mac)) as [Hlt | Hge].
  - rewrite Forall_forall in Hall. apply Hall, nth_In, Hlt.
  - rewrite nth_overflow by exact Hge. lia.
Qed.

Lemma append_inv_head (p a b : string) :
  String.append p a = String.append p b -> a = b.
Proof.
  induction p as [ | c p IH]; cbn [String.append]; intros H; [exact H | ].
  injection H as H. apply IH, H.
Qed.

Lemma macToStr_inj (m1 m2 : list Z) :
  is_mac m1 -> is_mac m2 -> macToStr m1 = macToStr m2 -> m1 = m2.
Proof.
  intros Hm1 Hm2 Heq.
  apply (nth_ext m1 m2 0 0).
  - destruct Hm1 as [L1 _], Hm2 as [L2 _]. congruence.
  - intros j Hj. destruct Hm1 as [L1 A1]. rewrite L1 in Hj.
    apply (macToStr_for_inj m1 m2 (is_mac_nth m1 (conj L1 A1))
             (is_mac_nth m2 Hm2) 6 0); [reflexivity | exact Heq | lia].
Qed.

Lemma append_length (a b : string) :
  String.length (String.append a b) = (String.length a + String.length b)%nat.
Proof.
  induction a as [ | c a IH]; cbn [String.append String.length]; [reflexivity | ].
  rewrite IH. reflexivity.
Qed.

Lemma append_inv_tail (a b suffix : string) :
  String.append a suffix = String.append b suffix -> a = b.
Proof.
  intros H.
  assert (Hlen : String.length a = String.length b).
  { apply (f_equal String.length) in H. rewrite !append_length in H. lia. }
  revert b H Hlen. induction a as [ | c a IH]; intros [ | d b] H Hlen;
    cbn [String.length] in Hlen; try discriminate Hlen; [reflexivity | ].
  cbn [String.append] in H. injection H as Hc H.
  rewrite Hc. f_equal. apply IH; [exact H | lia].
Qed.

(** X18.  The client id is "esp-" followed by the six bytes of the MAC
    address in lower-case hexadecimal, without leading zeros, separated
    by colons; two devices with different MAC addresses never get the
    same client id, the same status topic or the same command topic. *)
Theorem client_id_identifies_device :
  forall (topic : string) (m1 m2 : list Z),
    is_mac m1 -> is_mac m2 ->
    (composeClientID m1 = composeClientID m2 -> m1 = m2) /\
    (pubTopic topic m1 = pubTopic topic m2 -> m1 = m2) /\
    (subscription topic m1 = subscription topic m2 -> m1 = m2).
Proof.
  intros topic m1 m2 Hm1 Hm2.
  assert (Hid : composeClientID m1 = composeClientID m2 -> m1 = m2).
  { unfold composeClientID. intros H. apply append_inv_head in H.
    apply macToStr_inj; assumption. }
  split; [exact Hid | ].
  split; intros H; unfold pubTopic, subscription in H;
    apply append_inv_head, append_inv_head, append_inv_tail in H;
    apply Hid; exact H.
Qed.

Lemma client_id_identifies_device_witness :
  is_mac [1; 17; 190; 239; 0; 10] /\
  is_mac [17; 1; 190; 239; 0; 10] /\
  composeClientID [1; 17; 190; 239; 0; 10] = "esp-1:11:be:ef:0:a" /\
  composeClientID [1; 17; 190; 239; 0; 10] <>
  composeClientID [17; 1; 190; 239; 0; 10].
Proof.
  assert (Hm1 : is_mac [1; 17; 190; 239; 0; 10]).
  { split; [reflexivity | ]. repeat constructor; lia. }
  assert (Hm2 : is_mac [17; 1; 190; 239; 0; 10]).
  { split; [reflexivity | ]. repeat constructor; lia. }
  split; [exact Hm1 | ]. split; [exact Hm2 | ]. split; [reflexivity | ].
  destruct (client_id_identifies_device "pool" _ _ Hm1 Hm2) as [Hid _].
  intros Heq. apply Hid in Heq. discriminate Heq.
Defined.

(** X19.  A device never subscribes to the topic it publishes its status
    on: for any base topic and MAC address the "/in" topic and the "/out"
    topic differ, and both extend the base topic with the client id. *)
Theorem status_and_command_topics_differ :
  forall (topic : string) (mac : list Z),
    pubTopic topic mac <> subscription topic mac /\
    String.prefix (String.append topic (String.append "/" (composeClientID mac)))
                  (pubTopic topic mac) = true /\
    String.prefix (String.append topic (String.append "/" (composeClientID mac)))
                  (subscription topic mac) = true.
Proof.
  intros topic mac.
  assert (Hprefix : forall a b, String.prefix a (String.append a b) = true).
  { induction a as [ | c a IH]; intros b; cbn [String.append String.prefix];
      [destruct b; reflexivity | ].
    destruct (ascii_dec c c) as [_ | Hne]; [apply IH | contradiction Hne; reflexivity]. }
  assert (Hassoc : forall a b c,
            String.append a (String.append b c) =
            String.append (String.append a b) c).
  { induction a as [ | x a IH]; intros b c; cbn [String.append];
      [reflexivity | rewrite IH; reflexivity]. }
  split.
  - unfold pubTopic, subscription. intros H.
    apply append_inv_head, append_inv_head, append_inv_head in H.
    discriminate H.
  - unfold pubTopic, subscription.
    split.
    + rewrite (Hassoc "/" (composeClientID mac) "/out").
      rewrite (Hassoc topic (String.append "/" (composeClientID mac)) "/out").
      apply Hprefix.
    + rewrite (Hassoc "/" (composeClientID mac) "/in").
      rewrite (Hassoc topic (String.append "/" (composeClientID mac)) "/in").
      apply Hprefix.
Qed.

(* ===================================================================== *)
(** ** The MQTT session *)

Lemma reconnect_loop_failures (topic : string) (mac : list Z)
      (fails rest : list (Z * bool)) :
  Forall (fun a => snd a = false) fails ->
  reconnect_loop topic mac (fails ++ rest) =
  (failed_attempts mac fails ++ fst (reconnect_loop topic mac rest),
   snd (reconnect_loop topic mac rest)).
Proof.
  induction 1 as [ | [us ok] fails Hok _ IH].
  - cbn [app failed_attempts flat_map].
    destruct (reconnect_loop topic mac rest); reflexivity.
  - cbn [snd] in Hok. subst ok.
    cbn [app reconnect_loop]. rewrite IH. reflexivity.
Qed.

Lemma mqtt_delay_failed_attempts (mac : list Z) (fails : list (Z * bool))
      (tail : list MqttEvent) :
  mqtt_delay (failed_attempts mac fails ++ tail) =
  5000 * Z.of_nat (List.length fails) + mqtt_delay tail.
Proof.
  induction fails as [ | a fails IH]; [cbn; lia | ].
  unfold failed_attempts in *.
  cbn [flat_map app mqtt_delay List.length]. rewrite IH. lia.
Qed.

(** X20.  [reconnect] does nothing when the client is connected.
    Otherwise it tries to connect again and again, waiting 5000 ms after
    each failure, without a limit: as long as the attempts fail it has not
    returned.  After [n] failures and a success it has waited [5000 * n]
    ms, and what it does then, and only then, is to publish the retained
    announcement on the base topic and to subscribe to the device's "/in"
    topic, in this order, once; then it returns and ignores what follows. *)
Theorem reconnect_retries_then_subscribes :
  forall (topic : string) (mac : list Z) (fails rest : list (Z * bool)) (us : Z),
    Forall (fun a => snd a = false) fails ->
    reconnect topic mac true (fails ++ (us, true) :: rest) = ([], true) /\
    reconnect topic mac false fails = (failed_attempts mac fails, false) /\
    reconnect topic mac false (fails ++ (us, true) :: rest) =
      (failed_attempts mac fails ++
       [MConnect (attempt_clientId mac us);
        MPublish topic (String.append "connected " (composeClientID mac)) true;
        MSubscribe (subscription topic mac)],
       true) /\
    mqtt_delay (fst (reconnect topic mac false (fails ++ (us, true) :: rest))) =
      5000 * Z.of_nat (List.length fails).
Proof.
  intros topic mac fails rest us Hfails.
  split; [reflexivity | ]. unfold reconnect.
  split.
  { rewrite <- (app_nil_r fails) at 1.
    rewrite (reconnect_loop_failures topic mac fails [] Hfails).
    cbn [reconnect_loop fst snd]. rewrite app_nil_r. reflexivity. }
  rewrite (reconnect_loop_failures topic mac fails ((us, true) :: rest) Hfails).
  cbn [reconnect_loop fst snd].
  split; [reflexivity | ].
  rewrite mqtt_delay_failed_attempts. cbn [mqtt_delay]. lia.
Qed.

Lemma reconnect_retries_then_subscribes_witness :
  Forall (fun a : Z * bool => snd a = false) [(17, false); (4660, false)] /\
  mqtt_delay
    (fst (reconnect "pool" [222; 173; 190; 239; 0; 10] false
            ([(17, false); (4660, false)] ++ [(255, true)]))) = 10000.
Proof.
  assert (Hf : Forall (fun a : Z * bool => snd a = false)
                      [(17, false); (4660, false)])
    by (repeat constructor).
  split; [exact Hf | ].
  destruct (reconnect_retries_then_subscribes
              "pool" [222; 173; 190; 239; 0; 10]
              [(17, false); (4660, false)] [] 255 Hf) as [_ [_ [_ Hd]]].
  exact Hd.
Defined.

(* ===================================================================== *)
(** ** Boot, and where the colour comes from *)

(** X22.  The recorded colour changes nowhere but in the programming
    block: no message, no periodic status and no switch poll touches
    [currColor], and the block itself leaves it alone unless it runs (so a
    request that is cancelled before the block runs never shows).  When
    the block runs, the colour it records is the number of pulses it has
    just sent (none when the count is not positive). *)
Theorem currColor_changes_only_by_pulses :
  forall (s : State) (m : option JsonDoc) (now : Z) (reading : level),
    currColor (exec (callback m) s) = currColor s /\
    currColor (exec (loop_status now) s) = currColor s /\
    currColor (exec (loop_switch now reading) s) = currColor s /\
    (programming s = false ->
     currColor (exec (loop_programming now) s) = currColor s) /\
    (currColor (exec (loop_programming now) s) <> currColor s ->
     relay_view (trace (loop_programming now) s) =
       pulses (Z.to_nat (currColor (exec (loop_programming now) s))) /\
     programming (exec (loop_programming now) s) = false).
Proof.
  intros s m now reading.
  split.
  { apply (callback_keeps (fun s' => currColor s' = currColor s));
      [ | | | reflexivity].
    - intros s0 b H. unfold exec. rewrite setRelay_run. fields.
      destruct (programming s0); cbn [fst snd]; fields; exact H.
    - intros s0 name H. fields. exact H.
    - intros s0 b H. unfold exec. rewrite setProgramming_run.
      destruct (Bool.eqb (programming s0) b); [exact H | ].
      destruct b; cbn [fst snd]; fields; exact H. }
  split.
  { unfold exec. rewrite loop_status_run.
    destruct (negb (programming s) && _); reflexivity. }
  split; [apply loop_switch_keeps | ].
  unfold exec, trace. rewrite loop_programming_run.
  split.
  - intros Hp. rewrite Hp. reflexivity.
  - destruct (programming s && _); cbn [fst snd]; [ | congruence].
    intros _. unfold programmed. fields.
    rewrite relay_view_app, relay_view_pulses.
    split; [apply app_nil_r | reflexivity].
Qed.

Lemma currColor_changes_only_by_pulses_witness :
  programming booted = false /\
  currColor (exec (loop_programming 1000)
               (exec (callback (Some (mkDoc None (Some "off") (Some "Red"))))
                  (exec (callback (prog_on "Red")) booted))) = -1.
Proof.
  split; [reflexivity | ].
  set (s1 := exec (callback (prog_on "Red")) booted).
  set (s2 := exec (callback (Some (mkDoc None (Some "off") (Some "Red")))) s1).
  destruct (currColor_changes_only_by_pulses s2 None 1000 HIGH)
    as [_ [_ [_ [Hkeep _]]]].
  rewrite Hkeep; reflexivity.
Defined.

(* ===================================================================== *)
(** ** [setup] and [loop] in full *)

Lemma pass_delay_app (t1 t2 : list PassEvent) :
  pass_delay (t1 ++ t2) = pass_delay t1 + pass_delay t2.
Proof.
  induction t1 as [ | e t1 IH]; [reflexivity | ].
  cbn [app pass_delay]. destruct e as [[ | | | ] | [ | | ]]; rewrite IH; lia.
Qed.

Lemma pass_delay_session (t : list MqttEvent) :
  pass_delay (map Session t) = mqtt_delay t.
Proof.
  induction t as [ | e t IH]; [reflexivity | ].
  cbn [map pass_delay mqtt_delay]. destruct e; rewrite IH; reflexivity.
Qed.

Lemma pass_delay_device (t : list Event) :
  pass_delay (map Device t) = total_delay t.
Proof.
  induction t as [ | e t IH]; [reflexivity | ].
  cbn [map pass_delay total_delay]. destruct e; rewrite IH; reflexivity.
Qed.

(** X5.  What a pass through [loop] spends in [delay]: 5000 ms for each
    connection attempt of [reconnect] that fails (nothing when the client
    is connected at line 322; as long as every attempt fails the pass
    does not get past [reconnect]), and then, from a state reachable
    between passes, at most 500 ms per message received (the settle
    delay) plus 7000 ms (14 pulses).  With the client connected, no
    message and no programming pending, the pass does not block at all. *)
Theorem loop_blocking_time_bound :
  forall (topic : string) (mac : list Z) (fails rest : list (Z * bool))
         (us : Z) (i : Input) (s : State),
    reachable s ->
    Forall (fun a => snd a = false) fails ->
    let device := trace (loop i) s in
    (0 <= total_delay device <=
       500 * Z.of_nat (List.length (in_msgs i)) + 7000 /\
     (in_msgs i = [] -> programming s = false -> total_delay device = 0)) /\
    (exists t,
       loop_pass topic mac true rest i s = Some (exec (loop i) s, t) /\
       pass_delay t = total_delay device) /\
    (exists t,
       loop_pass topic mac false (fails ++ (us, true) :: rest) i s =
         Some (exec (loop i) s, t) /\
       pass_delay t =
         5000 * Z.of_nat (List.length fails) + total_delay device) /\
    loop_pass topic mac false fails i s = None.
Proof.
  intros topic mac fails rest us i s Hreach Hfails device.
  split; [apply loop_device_delay_bound; exact Hreach | ].
  split; [ | split].
  - eexists. split; [reflexivity | ].
    cbn [map app]. apply pass_delay_device.
  - unfold loop_pass, reconnect.
    rewrite (reconnect_loop_failures topic mac fails ((us, true) :: rest) Hfails).
    cbn [reconnect_loop fst snd]. eexists. split; [reflexivity | ].
    rewrite pass_delay_app, pass_delay_session, pass_delay_device.
    rewrite mqtt_delay_failed_attempts. cbn [mqtt_delay]. subst device. lia.
  - unfold loop_pass, reconnect.
    rewrite <- (app_nil_r fails).
    rewrite (reconnect_loop_failures topic mac fails [] Hfails).
    reflexivity.
Qed.

Lemma loop_blocking_time_bound_witness :
  reachable pending /\
  Forall (fun a : Z * bool => snd a = false) [(17, false); (4660, false)] /\
  exists t,
    loop_pass "pool" [222; 173; 190; 239; 0; 10] false
      ([(17, false); (4660, false)] ++ [(255, true)])
      (mkInput [] 1300 HIGH) pending =
    Some (exec (loop (mkInput [] 1300 HIGH)) pending, t) /\
    pass_delay t = 15000.
Proof.
  assert (Hreach : reachable pending).
  { unfold pending. apply reachable_run. unfold booted. apply reach_setup. }
  assert (Hf : Forall (fun a : Z * bool => snd a = false)
                      [(17, false); (4660, false)])
    by (repeat constructor).
  split; [exact Hreach | ]. split; [exact Hf | ].
  destruct (loop_blocking_time_bound "pool" [222; 173; 190; 239; 0; 10]
              [(17, false); (4660, false)] [] 255 (mkInput [] 1300 HIGH)
              pending Hreach Hf) as [_ [_ [[t [Hpass Hdelay]] _]]].
  exists t. split; [exact Hpass | ].
  rewrite Hdelay. vm_compute. reflexivity.
Defined.

Lemma result_bind {A B : Type} (m : M A) (k : A -> M B) (s : State) :
  result (bind m k) s = result (k (result m s)) (exec m s).
Proof.
  unfold exec, result, bind.
  destruct (m s) as [[a s1] t1]. cbn [fst snd].
  destruct (k a s1) as [[b s2] t2]. reflexivity.
Qed.

Lemma wifi_wait_run (waits : list Z) :
  Forall (fun st => st <> WL_CONNECTED) waits ->
  forall (more : list Z) (s : State),
    wifi_wait (waits ++ WL_CONNECTED :: more) s =
      (true, set_radio WL_CONNECTED (WiFi_RSSI s) s,
       repeat (EDelay 500) (List.length waits)) /\
    result (wifi_wait waits) s = false /\
    trace (wifi_wait waits) s = repeat (EDelay 500) (List.length waits).
Proof.
  induction 1 as [ | st waits Hst _ IH]; intros more s.
  - repeat split.
  - assert (Htest : negb (st =? WL_CONNECTED) = true).
    { apply negb_true_iff, Z.eqb_neq. exact Hst. }
    destruct (IH more (set_radio st (WiFi_RSSI s) s)) as [Hrun [Hres Htr]].
    cbn [app wifi_wait List.length repeat]. rewrite Htest.
    split; [ | split].
    + rewrite modify_bind_run.
      apply bind_run with (a := tt) (s1 := set_radio st (WiFi_RSSI s) s)
                          (t1 := [EDelay 500]); [reflexivity | ].
      rewrite Hrun. reflexivity.
    + unfold result in *. rewrite modify_bind_run. unfold bind at 1.
      cbn [delay emit].
      destruct (wifi_wait waits (set_radio st (WiFi_RSSI s) s)) as [[b s'] t'].
      cbn [fst] in *. exact Hres.
    + unfold trace in *. rewrite modify_bind_run. unfold bind at 1.
      cbn [delay emit].
      destruct (wifi_wait waits (set_radio st (WiFi_RSSI s) s)) as [[b s'] t'].
      cbn [snd app] in *. rewrite Htr. reflexivity.
Qed.

Lemma getQuality_value (s : State) :
  result getQuality s =
  if negb (WiFi_status s =? WL_CONNECTED) then -1
  else if WiFi_RSSI s <=? -100 then 0
  else if WiFi_RSSI s >=? -50 then 100
  else wrap32 (2 * wrap32 (WiFi_RSSI s + 100)).
Proof.
  unfold result, getQuality. run_fw.
  destruct (negb (WiFi_status s =? WL_CONNECTED)); [reflexivity | ].
  destruct (WiFi_RSSI s <=? -100); [reflexivity | ].
  destruct (WiFi_RSSI s >=? -50); reflexivity.
Qed.

Lemma getQuality_ignores_lastMsg (now : Z) (s : State) :
  result getQuality (set_lastMsg now s) = result getQuality s.
Proof. rewrite !getQuality_value. reflexivity. Qed.

(** The first pass of a sketch that has just booted: the boot status and
    nothing else. *)
Lemma loop_first_pass (s : State) (ms : Z) (reading : level) :
  programming s = false -> lastMsg s = 0 -> lastSwitchCheck s = 0 ->
  switchState s = reading ->
  loop (mkInput [] ms reading) s =
  (tt, set_lastSwitchCheck (wrap32 ms) (set_lastMsg (wrap32 ms) s),
   [EPublish (status_of (set_lastMsg (wrap32 ms) s))]).
Proof.
  intros Hp Hmsg Hsw Hread.
  unfold loop. cbn [in_msgs in_millis in_switch client_loop].
  apply bind_run with (a := tt) (s1 := s) (t1 := []); [reflexivity | ].
  eapply bind_run with (a := tt) (t1 := [EPublish _]);
    [rewrite loop_status_run, Hp, Hmsg; reflexivity | ].
  apply bind_run with (a := tt) (s1 := set_lastMsg (wrap32 ms) s) (t1 := []);
    [rewrite loop_programming_run; fields; rewrite Hp; reflexivity | ].
  rewrite loop_switch_run. fields. rewrite Hp, Hsw, Hread.
  replace (level_eqb reading reading) with true
    by (destruct reading; reflexivity).
  reflexivity.
Qed.

(** X21.  Boot.  [setup] writes the relay off, once, records the switch,
    and then waits for the WiFi network: 10 ms, and 500 ms for every
    answer of [WiFi.status()] that is not [WL_CONNECTED]; it does not
    return as long as none is.  The first pass through [loop], in which
    the MQTT client is not yet connected, with no message waiting and the
    switch where [setup] read it: [reconnect] tries until a connection
    attempt succeeds (5000 ms after each failure), announces and
    subscribes, and the pass then publishes exactly one status (power
    "off", programming "off", colour "Unknown") and writes nothing to the
    relay, which stays off. *)
Theorem first_pass_after_setup :
  forall (wifi_status rssi ms : Z) (reading : level) (waits more : list Z)
         (topic : string) (mac : list Z) (fails rest : list (Z * bool))
         (us : Z),
    Forall (fun st => st <> WL_CONNECTED) waits ->
    Forall (fun a => snd a = false) fails ->
    let boot := setup_sketch reading (waits ++ WL_CONNECTED :: more) in
    let s0 := exec boot (power_up wifi_status rssi) in
    let i := mkInput [] ms reading in
    (result boot (power_up wifi_status rssi) = true /\
     trace boot (power_up wifi_status rssi) =
       [EDigitalWrite relayPin HIGH; EDelay 10] ++
       repeat (EDelay 500) (List.length waits)) /\
    result (setup_sketch reading waits) (power_up wifi_status rssi) = false /\
    (relayPinLevel s0 = HIGH /\ relayOn s0 = false /\
     switchState s0 = reading /\ WiFi_status s0 = WL_CONNECTED /\
     reachable s0) /\
    loop_pass topic mac false (fails ++ (us, true) :: rest) i s0 =
      Some (exec (loop i) s0,
            map Session
              (failed_attempts mac fails ++
               [MConnect (attempt_clientId mac us);
                MPublish topic
                  (String.append "connected " (composeClientID mac)) true;
                MSubscribe (subscription topic mac)]) ++
            [Device (EPublish (mkStatus "off" (result getQuality s0)
                                        "off" "Unknown"))]) /\
    relayPinLevel (exec (loop i) s0) = HIGH.
Proof.
  intros wifi_status rssi ms reading waits more topic mac fails rest us
         Hwaits Hfails boot s0 i.
  set (s_pins := exec (setup reading) (power_up wifi_status rssi)).
  destruct (wifi_wait_run waits Hwaits more s_pins) as [Hwait [Hnever Hnever_t]].
  assert (Hboot : boot (power_up wifi_status rssi) =
            (true, set_radio WL_CONNECTED (WiFi_RSSI s_pins) s_pins,
             [EDigitalWrite relayPin HIGH; EDelay 10] ++
             repeat (EDelay 500) (List.length waits))).
  { subst boot. unfold setup_sketch, setup_wifi.
    apply bind_run with (a := tt) (s1 := s_pins)
                        (t1 := [EDigitalWrite relayPin HIGH]); [reflexivity | ].
    apply bind_run with (a := tt) (s1 := s_pins) (t1 := [EDelay 10]);
      [reflexivity | ].
    exact Hwait. }
  assert (Hs0 : s0 = set_radio WL_CONNECTED (WiFi_RSSI s_pins) s_pins).
  { subst s0. unfold exec. rewrite Hboot. reflexivity. }
  split.
  { unfold result, trace. rewrite Hboot. split; reflexivity. }
  split.
  { unfold setup_sketch, setup_wifi. rewrite !result_bind. exact Hnever. }
  split.
  { rewrite Hs0. repeat split.
    apply reach_radio. subst s_pins. apply reach_setup. }
  assert (Hpass : loop i s0 =
            (tt, set_lastSwitchCheck (wrap32 ms) (set_lastMsg (wrap32 ms) s0),
             [EPublish (status_of (set_lastMsg (wrap32 ms) s0))])).
  { subst i. apply loop_first_pass; rewrite Hs0; reflexivity. }
  assert (Hstatus : status_of (set_lastMsg (wrap32 ms) s0) =
                    mkStatus "off" (result getQuality s0) "off" "Unknown").
  { unfold status_of. rewrite (getQuality_ignores_lastMsg (wrap32 ms) s0).
    rewrite Hs0. fields. reflexivity. }
  split.
  - unfold loop_pass, reconnect.
    rewrite (reconnect_loop_failures topic mac fails ((us, true) :: rest) Hfails).
    cbn [reconnect_loop fst snd]. unfold exec, trace. rewrite Hpass.
    cbn [fst snd map]. rewrite Hstatus. reflexivity.
  - unfold exec. rewrite Hpass. rewrite Hs0. reflexivity.
Qed.

Lemma first_pass_after_setup_witness :
  Forall (fun st => st <> WL_CONNECTED) [WL_IDLE_STATUS; 6; 6] /\
  Forall (fun a : Z * bool => snd a = false) [(17, false)] /\
  total_delay
    (trace (setup_sketch HIGH ([WL_IDLE_STATUS; 6; 6] ++ [WL_CONNECTED]))
           (power_up WL_IDLE_STATUS (-60))) = 1510.
Proof.
  assert (Hw : Forall (fun st => st <> WL_CONNECTED) [WL_IDLE_STATUS; 6; 6]).
  { repeat constructor; unfold WL_CONNECTED, WL_IDLE_STATUS; lia. }
  assert (Hf : Forall (fun a : Z * bool => snd a = false) [(17, false)])
    by (repeat constructor).
  split; [exact Hw | ]. split; [exact Hf | ].
  destruct (first_pass_after_setup WL_IDLE_STATUS (-60) 0 HIGH
              [WL_IDLE_STATUS; 6; 6] [] "pool" [222; 173; 190; 239; 0; 10]
              [(17, false)] [] 255 Hw Hf) as [[_ Htrace] _].
  rewrite Htrace. reflexivity.
Defined.
